(** * heat_parallel.c: a shallow embedding of the MPI heat-diffusion solver

    The embedding follows [src/Third Assignment/tdt4200_f23_ps3_handout/src/
    heat_parallel.c] function by function.  One
    process of the SPMD program is a value of type [state] (the file's global
    variables together with the part of the environment the program touches:
    standard output and the files under [data/]).  Every C function becomes a
    function [state -> result state].

    Conventions.
    - [int], [int_t] (= int64_t) values are integers of [Z]; [/] is [Z.quot]
      and [%] is [Z.rem] (C truncates toward zero) and a zero divisor is
      undefined behaviour.  The arithmetic is that of [Z]: the embedding
      follows the program on the runs in which no [int_t] operation
      overflows.  A statement about arbitrary values carries the bounds
      that keep the program inside that range ([INT64_MAX], [in_range]).
    - [real_t] (= double) is the kernel's binary64 [float]; [sin] from libm is
      a parameter of the development.
    - a heap block is a [list real_t]; an access outside the block is undefined
      behaviour ([Undef]).  [malloc] is taken to succeed: the block it
      returns holds arbitrary values, given by a function [junk] from cell
      number to value. *)

From Stdlib Require Import ZArith Lia List String Ascii Bool DecimalString.
From Stdlib Require Import PrimFloat Uint63.
From stdpp Require Import base tactics option list strings gmap.

Local Open Scope Z_scope.

(** ** Outcomes of a computation *)

(** What a piece of the program can do: return normally, call [exit], run into
    undefined behaviour, or enter a collective MPI call that rank 0 never
    enters.  In the last case the program text decides nothing further: what
    becomes of the process is up to the MPI runtime and the launcher, and the
    embedding stops there ([Stranded]). *)
Inductive result (A : Type) : Type :=
| Ok (a : A)
| Exit (code : Z)
| Undef
| Stranded.
Arguments Ok {A} a.
Arguments Exit {A} code.
Arguments Undef {A}.
Arguments Stranded {A}.

Definition bind {A B : Type} (k : A -> result B) (m : result A) : result B :=
  match m with
  | Ok a => k a
  | Exit c => Exit c
  | Undef => Undef
  | Stranded => Stranded
  end.

#[global] Instance result_ret : MRet result := @Ok.
#[global] Instance result_bind : MBind result := @bind.

(** ** Numbers *)

Abbreviation real_t := float.

(** Conversion of an [int_t] to [double]. *)
Definition real_of_int (z : Z) : real_t :=
  if z <? 0 then PrimFloat.opp (PrimFloat.of_uint63 (Uint63.of_Z (- z)))
  else PrimFloat.of_uint63 (Uint63.of_Z z).

(** C integer division and remainder, undefined for a zero divisor.  The
    one quotient that overflows, [INT64_MIN / -1], lies outside the range
    the embedding covers. *)
Definition int_div (a b : Z) : result Z :=
  if b =? 0 then Undef else Ok (Z.quot a b).

Definition int_rem (a b : Z) : result Z :=
  if b =? 0 then Undef else Ok (Z.rem a b).

(** The largest [int_t]: the counter of a loop [for (i = lo; i <= hi; i++)]
    stays in range when [hi < INT64_MAX]. *)
Definition INT64_MAX : Z := 9223372036854775807.

(** Extents and coordinates up to 2^20.  With them every [int_t] value that
    [domain_init] computes stays below 2^42: no operation overflows, the
    conversions to [double] are exact and the byte count of a block fits
    [size_t]. *)
Definition MAX_EXTENT : Z := 1048576.

Definition in_range (z : Z) : Prop := 0 <= z <= MAX_EXTENT.

(** ** Heap blocks *)

Abbreviation buffer := (list real_t).

Definition malloc (junk : nat -> real_t) (n : Z) : buffer :=
  map junk (seq 0 (Z.to_nat n)).

Definition in_bounds (b : buffer) (i : Z) : bool :=
  (0 <=? i) && (i <? Z.of_nat (length b)).

Definition load (b : buffer) (i : Z) : result real_t :=
  if in_bounds b i then
    match b !! Z.to_nat i with
    | Some v => Ok v
    | None => Undef
    end
  else Undef.

Definition store (b : buffer) (i : Z) (v : real_t) : result buffer :=
  if in_bounds b i then Ok (<[Z.to_nat i := v]> b) else Undef.

(** ** Environment: standard output and files

    What [printf] writes on standard output; the messages on [stderr] and the
    elapsed time are not modelled. *)

Inductive output : Type :=
| PrintLocalSize (rank local_col local_row : Z)
| PrintOffset (rank offset_x offset_y : Z)
| PrintIteration (iteration max_iteration : Z).

(** A file holds the [real_t] values written to it, in order; each takes
    [sizeof(real_t)] bytes. *)
Definition sizeof_real_t : Z := 8.

Abbreviation file := (list real_t).

Definition file_bytes (f : file) : Z := sizeof_real_t * Z.of_nat (length f).

(** ** The global variables of the program *)

Record state : Type := mkState {
  rank : Z;
  size : Z;
  dims0 : Z;
  dims1 : Z;
  coord0 : Z;
  coord1 : Z;
  M : Z;
  N : Z;
  max_iteration : Z;
  snapshot_frequency : Z;
  temp0 : buffer;
  temp1 : buffer;
  thermal_diffusivity : buffer;
  dt : real_t;
  (* environment *)
  stdio : list output;
  files : gmap string file;
  can_open : string -> bool
}.

Definition set_temp0 (st : state) (b : buffer) : state :=
  mkState (rank st) (size st) (dims0 st) (dims1 st) (coord0 st) (coord1 st)
    (M st) (N st) (max_iteration st) (snapshot_frequency st)
    b (temp1 st) (thermal_diffusivity st) (dt st)
    (stdio st) (files st) (can_open st).

Definition set_temp1 (st : state) (b : buffer) : state :=
  mkState (rank st) (size st) (dims0 st) (dims1 st) (coord0 st) (coord1 st)
    (M st) (N st) (max_iteration st) (snapshot_frequency st)
    (temp0 st) b (thermal_diffusivity st) (dt st)
    (stdio st) (files st) (can_open st).

Definition set_thermal_diffusivity (st : state) (b : buffer) : state :=
  mkState (rank st) (size st) (dims0 st) (dims1 st) (coord0 st) (coord1 st)
    (M st) (N st) (max_iteration st) (snapshot_frequency st)
    (temp0 st) (temp1 st) b (dt st)
    (stdio st) (files st) (can_open st).

Definition set_dt (st : state) (v : real_t) : state :=
  mkState (rank st) (size st) (dims0 st) (dims1 st) (coord0 st) (coord1 st)
    (M st) (N st) (max_iteration st) (snapshot_frequency st)
    (temp0 st) (temp1 st) (thermal_diffusivity st) v
    (stdio st) (files st) (can_open st).

Definition print (o : output) (st : state) : state :=
  mkState (rank st) (size st) (dims0 st) (dims1 st) (coord0 st) (coord1 st)
    (M st) (N st) (max_iteration st) (snapshot_frequency st)
    (temp0 st) (temp1 st) (thermal_diffusivity st) (dt st)
    (stdio st ++ [o]) (files st) (can_open st).

Definition set_files (st : state) (fs : gmap string file) : state :=
  mkState (rank st) (size st) (dims0 st) (dims1 st) (coord0 st) (coord1 st)
    (M st) (N st) (max_iteration st) (snapshot_frequency st)
    (temp0 st) (temp1 st) (thermal_diffusivity st) (dt st)
    (stdio st) fs (can_open st).

(** ** The indexing macros

    [#define T(x,y) temp[0][(y) * (N + 2) + (x)]] and its two siblings: the row
    stride is the global [N + 2] in all three. *)

Definition index (st : state) (x y : Z) : Z := y * (N st + 2) + x.

Definition T (st : state) (x y : Z) : result real_t :=
  load (temp0 st) (index st x y).

Definition T_next (st : state) (x y : Z) : result real_t :=
  load (temp1 st) (index st x y).

Definition THERMAL_DIFFUSIVITY (st : state) (x y : Z) : result real_t :=
  load (thermal_diffusivity st) (index st x y).

Definition set_T (st : state) (x y : Z) (v : real_t) : result state :=
  b ← store (temp0 st) (index st x y) v; Ok (set_temp0 st b).

Definition set_T_next (st : state) (x y : Z) (v : real_t) : result state :=
  b ← store (temp1 st) (index st x y) v; Ok (set_temp1 st b).

Definition set_THERMAL_DIFFUSIVITY (st : state) (x y : Z) (v : real_t)
  : result state :=
  b ← store (thermal_diffusivity st) (index st x y) v;
  Ok (set_thermal_diffusivity st b).

(** ** Loops

    [for (int_t i = lo; i <= hi; i++) body], for a body that changes neither
    [i] nor the bound.  The counter is an integer of [Z]: the loop of the
    program is this one when [hi < INT64_MAX], where [i++] does not
    overflow. *)

Fixpoint for_count {S : Type} (n : nat) (i : Z) (body : Z -> S -> result S)
  (s : S) : result S :=
  match n with
  | O => Ok s
  | Datatypes.S n' => s' ← body i s; for_count n' (i + 1) body s'
  end.

Definition for_loop {S : Type} (lo hi : Z) (body : Z -> S -> result S)
  (s : S) : result S :=
  for_count (Z.to_nat (hi - lo + 1)) lo body s.

(** ** [swap] *)

Definition swap (st : state) : state :=
  set_temp1 (set_temp0 st (temp1 st)) (temp0 st).

(** ** [time_step] *)

Definition stencil (c t b l r K dt : real_t) : real_t :=
  (c + K * dt * ((l - 2 * c + r) + (b - 2 * c + t)))%float.

Definition time_step_cell (y x : Z) (st : state) : result state :=
  c ← T st x y;
  t ← T st (x - 1) y;
  b ← T st (x + 1) y;
  l ← T st x (y - 1);
  r ← T st x (y + 1);
  K ← THERMAL_DIFFUSIVITY st x y;
  let new_value := stencil c t b l r K (dt st) in
  set_T_next st x y new_value.

Definition time_step (st : state) : result state :=
  rows ← int_div (M st) (size st);
  cols ← int_div (N st) (size st);
  for_loop 1 rows (fun y => for_loop 1 cols (time_step_cell y)) st.

(** ** [boundary_condition] *)

(** Body of the first loop (lines 173-174): both horizontal halo rows. *)
Definition boundary_condition_rows (x : Z) (st : state) : result state :=
  v ← T st x 2;
  st ← set_T st x 0 v;
  rows ← int_div (M st) (dims1 st);
  v ← T st x (rows - 1);
  set_T st x (rows + 1) v.

(** Body of the loop under [rank == 0] (line 182). *)
Definition boundary_condition_first (y : Z) (st : state) : result state :=
  v ← T st 2 y;
  set_T st 0 y v.

(** Body of the loop under [rank == size - 1] (line 191). *)
Definition boundary_condition_last (y : Z) (st : state) : result state :=
  cols ← int_div (N st) (dims0 st);
  v ← T st (cols - 1) y;
  set_T st (cols + 1) y v.

Definition boundary_condition (st : state) : result state :=
  cols ← int_div (N st) (dims0 st);
  st ← for_loop 1 cols boundary_condition_rows st;
  st ← (if rank st =? 0 then
          rows ← int_div (M st) (dims1 st);
          for_loop 1 rows boundary_condition_first st
        else Ok st);
  if rank st =? size st - 1 then
    rows ← int_div (M st) (dims1 st);
    for_loop 1 rows boundary_condition_last st
  else Ok st.

(** ** [domain_save] *)

(** [sprintf ( filename, "data/%.5ld.bin", index )]: the precision of an
    integer conversion is the minimum number of digits, padded with zeros. *)
Definition decimal (n : Z) : string :=
  NilZero.string_of_uint (N.to_uint (Z.to_N n)).

Fixpoint zeros (n : nat) : string :=
  match n with
  | O => EmptyString
  | Datatypes.S n' => String "0"%char (zeros n')
  end.

Definition format_5ld (index : Z) : string :=
  let ds := decimal (Z.abs index) in
  let padded := (zeros (5 - String.length ds) ++ ds)%string in
  if index <? 0 then String "-"%char padded else padded.

Definition snapshot_filename (index : Z) : string :=
  ("data/" ++ format_5ld index ++ ".bin")%string.

(** The cells [start], ..., [start + count - 1] of a block, as [fwrite]
    reads them. *)
Definition read_block (b : buffer) (start count : Z) : result (list real_t) :=
  if (0 <=? start) && (0 <=? count) && (start + count <=? Z.of_nat (length b))
  then Ok (take (Z.to_nat count) (drop (Z.to_nat start) b))
  else Undef.

(** [fopen ( filename, "wb" )]: the file is created or truncated. *)
Definition fopen_wb (name : string) (st : state) : option state :=
  if can_open st name
  then Some (set_files st (<[name := []]> (files st)))
  else None.

(** [fwrite ( ptr, sizeof(real_t), count, out )] appends to the open file. *)
Definition fwrite (name : string) (data : list real_t) (st : state) : state :=
  let old := default [] (files st !! name) in
  set_files st (<[name := old ++ data]> (files st)).

Definition domain_save_row (name : string) (iter : Z) (st : state)
  : result state :=
  data ← read_block (temp0 st) ((M st + 2) * iter + 1) (N st);
  Ok (fwrite name data st).

Definition domain_save (iteration : Z) (st : state) : result state :=
  index ← int_div iteration (snapshot_frequency st);
  let filename := snapshot_filename index in
  match fopen_wb filename st with
  | None => Exit 1
  | Some st => for_loop 1 (N st) (domain_save_row filename) st
  end.

(** ** The MPI library and the argument parser

    Both are outside [src/]; what the program uses of them is modelled here. *)

(** Modelled from the spec: the [OPTIONS] structure of
    [inc/argument_utils.h], of which [main] reads these four fields;
    [parse_args] returns a null pointer when parsing fails, which is [None]. *)
Record OPTIONS : Type := mkOptions {
  opt_M : Z;
  opt_N : Z;
  opt_max_iteration : Z;
  opt_snapshot_frequency : Z
}.

(** [MPI_Dims_create ( size, 2, dims )] with [dims = {0, 0}]: the balanced
    factorisation of [size], in non-increasing order. *)
Fixpoint largest_divisor_upto (n : Z) (k : nat) : Z :=
  match k with
  | O => 1
  | Datatypes.S k' =>
      if Z.rem n (Z.of_nat k) =? 0 then Z.of_nat k
      else largest_divisor_upto n k'
  end.

Definition MPI_Dims_create (size : Z) : Z * Z :=
  let d := largest_divisor_upto size (Z.to_nat (Z.sqrt size)) in
  (Z.quot size d, d).

(** [MPI_Cart_coords]: ranks are laid out row-major over [dims]. *)
Definition MPI_Cart_coords (dims1 rank : Z) : Z * Z :=
  (Z.quot rank dims1, Z.rem rank dims1).

Definition set_options (st : state) (o : OPTIONS) : state :=
  mkState (rank st) (size st) (dims0 st) (dims1 st) (coord0 st) (coord1 st)
    (opt_M o) (opt_N o) (opt_max_iteration o) (opt_snapshot_frequency o)
    (temp0 st) (temp1 st) (thermal_diffusivity st) (dt st)
    (stdio st) (files st) (can_open st).

Definition set_dims (st : state) (d : Z * Z) : state :=
  mkState (rank st) (size st) (fst d) (snd d) (coord0 st) (coord1 st)
    (M st) (N st) (max_iteration st) (snapshot_frequency st)
    (temp0 st) (temp1 st) (thermal_diffusivity st) (dt st)
    (stdio st) (files st) (can_open st).

Definition set_coord (st : state) (c : Z * Z) : state :=
  mkState (rank st) (size st) (dims0 st) (dims1 st) (fst c) (snd c)
    (M st) (N st) (max_iteration st) (snapshot_frequency st)
    (temp0 st) (temp1 st) (thermal_diffusivity st) (dt st)
    (stdio st) (files st) (can_open st).

(** The globals at program start: zero-initialised, the three pointers null
    (no cell can be accessed), and [rank], [size] as [MPI_Comm_rank] and
    [MPI_Comm_size] report them. *)
Definition start_state (rank size : Z) (fs : gmap string file)
  (can_open : string -> bool) : state :=
  mkState rank size 0 0 0 0 0 0 0 0 [] [] [] 0%float [] fs can_open.

Set Warnings "-inexact-float".

Section Solver.

(** [sin] of the C library. *)
Variable sin : real_t -> real_t.

(** ** [domain_init] *)

(** Lines 223 and 224, for the cell [(x, y)]. *)
Definition initial_temperature (offset_x offset_y x y : Z) : real_t :=
  (30 + 30 * sin (real_of_int ((x + offset_x) + (offset_y + y)) / 20.0))%float.

Definition initial_diffusivity (N offset_x offset_y x y : Z) : real_t :=
  (0.05 + (30 + 30 * sin (real_of_int (N - x + offset_x + offset_y + y) / 20.0))
          / 605.0)%float.

(** Body of the inner loop (lines 223-228). *)
Definition domain_init_cell (offset_x offset_y y x : Z) (st : state)
  : result state :=
  let temperature := initial_temperature offset_x offset_y x y in
  let diffusivity := initial_diffusivity (N st) offset_x offset_y x y in
  st ← set_T st x y temperature;
  st ← set_T_next st x y temperature;
  set_THERMAL_DIFFUSIVITY st x y diffusivity.

(** [junk0], [junk1] and [junk2] are the contents of the blocks the three
    calls of [malloc] return.  The cell count and the offsets are computed in
    [Z] and the calls are taken to succeed: this is [domain_init] for extents
    and coordinates [in_range]. *)
Definition domain_init (junk0 junk1 junk2 : nat -> real_t) (st : state)
  : result state :=
  local_col ← int_div (M st) (dims0 st);
  local_row ← int_div (N st) (dims1 st);
  let st := print (PrintLocalSize (rank st) local_col local_row) st in
  let st := set_temp0 st (malloc junk0 ((local_col + 2) * (local_row + 2))) in
  let st := set_temp1 st (malloc junk1 ((local_col + 2) * (local_row + 2))) in
  let st := set_thermal_diffusivity st
              (malloc junk2 ((local_col + 2) * (local_row + 2))) in
  let st := set_dt st 0.1%float in
  let offset_x := local_row * coord0 st in
  let offset_y := local_col * coord1 st in
  let st := print (PrintOffset (rank st) offset_x offset_y) st in
  for_loop 1 local_col
    (fun y => for_loop 1 local_row (domain_init_cell offset_x offset_y y)) st.

(** ** [main] *)

(** Lines 70-82: only rank 0 parses the arguments, and it alone leaves through
    [exit(1)] when that fails. *)
Definition parse_arguments (parsed : option OPTIONS) (st : state)
  : result state :=
  if rank st =? 0 then
    match parsed with
    | None => Exit 1
    | Some o => Ok (set_options st o)
    end
  else Ok st.

(** Lines 83-91: [MPI_Cart_create] and the four [MPI_Bcast] are collective
    over [MPI_COMM_WORLD]; when every rank enters them, the broadcasts
    deliver the values rank 0 parsed.  [parsed] is the outcome of
    [parse_args] on rank 0: when it is [None], rank 0 has left in
    [parse_arguments], and a rank that arrives here enters a collective call
    without rank 0.  Nothing in the program says what happens then (the MPI
    runtime may let the rank wait, fail the call or end the process), so
    the embedding of that rank stops with [Stranded]. *)
Definition create_topology (parsed : option OPTIONS) (st : state)
  : result state :=
  let st := set_dims st (MPI_Dims_create (size st)) in
  match parsed with
  | None => Stranded
  | Some o =>
      let st := set_options st o in
      Ok (set_coord st (MPI_Cart_coords (dims1 st) (rank st)))
  end.

(** Body of the iteration loop (lines 102-122): the calls of
    [boundary_condition], [time_step] and [domain_save] are commented out in
    the source and no border exchange is written. *)
Definition iteration_body (iteration : Z) (st : state) : result state :=
  r ← int_rem iteration (snapshot_frequency st);
  let st :=
    if (r =? 0) && (rank st =? 0)
    then print (PrintIteration iteration (max_iteration st)) st
    else st in
  Ok (swap st).

Definition iterate (st : state) : result state :=
  for_loop 0 (max_iteration st) iteration_body st.

(** Lines 67-91: start-up, before [domain_init]. *)
Definition startup (parsed : option OPTIONS) (st : state) : result state :=
  st ← parse_arguments parsed st;
  create_topology parsed st.

(** Lines 67-95: start-up, up to and including [domain_init]. *)
Definition initialise (junk0 junk1 junk2 : nat -> real_t)
  (parsed : option OPTIONS) (st : state) : result state :=
  st ← startup parsed st;
  domain_init junk0 junk1 junk2 st.

(** Lines 67-123: everything up to the end of the iteration loop. *)
Definition run (junk0 junk1 junk2 : nat -> real_t) (parsed : option OPTIONS)
  (st : state) : result state :=
  st ← initialise junk0 junk1 junk2 parsed st;
  iterate st.

(** [main]: after the loop the elapsed time is printed, [domain_finalize]
    frees the blocks and the process leaves through [exit ( EXIT_SUCCESS )]. *)
Definition main (junk0 junk1 junk2 : nat -> real_t) (parsed : option OPTIONS)
  (st : state) : result state :=
  st ← run junk0 junk1 junk2 parsed st;
  Exit 0.

End Solver.


(** * Vocabulary of the statements *)

(** The value of an in-bounds cell of a block. *)
Definition get (b : buffer) (i : Z) : real_t :=
  default 0%float (b !! Z.to_nat i).

(** What [time_step] computes for the cell [(x, y)] from the state it is
    called in. *)
Definition stencil_at (st : state) (x y : Z) : real_t :=
  stencil (get (temp0 st) (index st x y))
    (get (temp0 st) (index st (x - 1) y)) (get (temp0 st) (index st (x + 1) y))
    (get (temp0 st) (index st x (y - 1))) (get (temp0 st) (index st x (y + 1)))
    (get (thermal_diffusivity st) (index st x y)) (dt st).

Definition with_buffers (st : state) (b0 b1 b2 : buffer) : state :=
  set_thermal_diffusivity (set_temp1 (set_temp0 st b0) b1) b2.

(** The state in which the loops of [domain_init] start: the sizes are
    printed, the three blocks are allocated and [dt] is set. *)
Definition allocated (junk0 junk1 junk2 : nat -> real_t) (st : state) : state :=
  let local_col := Z.quot (M st) (dims0 st) in
  let local_row := Z.quot (N st) (dims1 st) in
  let cells := (local_col + 2) * (local_row + 2) in
  print (PrintOffset (rank st) (local_row * coord0 st) (local_col * coord1 st))
    (set_dt
       (with_buffers (print (PrintLocalSize (rank st) local_col local_row) st)
          (malloc junk0 cells) (malloc junk1 cells) (malloc junk2 cells))
       0.1%float).

(** Position of the cell [(x, y)] in a block whose rows are [stride] long. *)
Definition cell (stride x y : Z) : nat := Z.to_nat (y * stride + x).

(** The cells two nested loops over [1..cols] (inner) and rows (outer) have
    visited when they stand at row [y], column [x]. *)
Definition visited (cols y x x' y' : Z) : Prop :=
  1 <= x' <= cols /\ (1 <= y' < y \/ (y' = y /\ 1 <= y' /\ x' < x)).

(** [b] is [b0] with the visited cells set to [val]. *)
Definition filled (stride cols : Z) (val : Z -> Z -> real_t) (b0 : buffer)
  (y x : Z) (b : buffer) : Prop :=
  length b = length b0 /\
  (forall x' y', visited cols y x x' y' ->
     b !! cell stride x' y' = Some (val x' y')) /\
  (forall i : nat, (forall x' y', visited cols y x x' y' -> i <> cell stride x' y') ->
     b !! i = b0 !! i).

(** One pointer swap, on the pair [(temp[0], temp[1])]. *)
Definition exchange (p : buffer * buffer) : buffer * buffer := (p.2, p.1).

(** An environment in which every [fopen] succeeds. *)
Definition all_files : string -> bool := fun _ => true.

(** The field [30 + 30 * sin((x + y) / 20.0)] over [rows] rows and [cols]
    columns in row-major order, the coordinates counted from [first]. *)
Definition initial_field (sin : real_t -> real_t) (first rows cols : Z)
  : list real_t :=
  r ← seqZ 0 rows;
  c ← seqZ 0 cols;
  [(30 + 30 * sin (real_of_int ((c + first) + (r + first)) / 20.0))%float].

(** Stand-ins for closed examples: a function in the place of [sin] and
    blocks that [malloc] returns zeroed. *)
Definition sample_sin (v : real_t) : real_t := (v / 2)%float.
Definition zeroed (i : nat) : real_t := 0%float.

(** The state a computation returned (the start state when it did not). *)
Definition state_of (r : result state) : state :=
  match r with
  | Ok st => st
  | _ => start_state 0 0 ∅ all_files
  end.

(** The arguments [-m 8 -n 8 -i 0 -s 1]: an 8 x 8 grid, one iteration,
    a snapshot at every iteration. *)
Definition square8 : OPTIONS := mkOptions 8 8 0 1.

(** One process on the 8 x 8 grid, after [domain_init]. *)
Definition example_state : state :=
  state_of (initialise sample_sin zeroed zeroed zeroed (Some square8)
              (start_state 0 1 ∅ all_files)).

(** An environment in which no file can be opened for writing. *)
Definition read_only : string -> bool := fun _ => false.

(** Whether a file starts with a value below 31. *)
Definition first_below_31 (f : option file) : bool :=
  match f with
  | Some (v :: _) => PrimFloat.ltb v 31
  | _ => false
  end.

(** The progress lines a process prints in the iterations [0], ..., [n - 1]. *)
Definition progress_lines (st : state) (n : Z) : list output :=
  if rank st =? 0
  then (fun i => PrintIteration i (max_iteration st))
         <$> filter (fun i => Z.rem i (snapshot_frequency st) = 0) (seqZ 0 n)
  else [].

(** The row [iter] as [domain_save] reads it. *)
Definition saved_row (st : state) (iter : Z) : list real_t :=
  take (Z.to_nat (N st)) (drop (Z.to_nat ((M st + 2) * iter + 1)) (temp0 st)).

(** The rows [1], ..., [n] as [domain_save] reads them, one after the other. *)
Definition saved_rows (st : state) (n : Z) : list real_t :=
  iter ← seqZ 1 n; saved_row st iter.

Definition is_digit (c : ascii) : bool :=
  (48 <=? Z.of_nat (nat_of_ascii c)) && (Z.of_nat (nat_of_ascii c) <=? 57).

(** The number a string of decimal digits denotes. *)
Fixpoint digits_value (acc : Z) (s : string) : option Z :=
  match s with
  | EmptyString => Some acc
  | String c s' =>
      if is_digit c
      then digits_value (10 * acc + (Z.of_nat (nat_of_ascii c) - 48)) s'
      else None
  end.

(** [format_5ld index] is five digits long and denotes [index]. *)
Definition five_digits_of (index : Z) : bool :=
  (String.length (format_5ld index) =? 5)%nat
  && match digits_value 0 (format_5ld index) with
     | Some v => v =? index
     | None => false
     end.

Definition decimal_digits : list Z := [0; 1; 2; 3; 4; 5; 6; 7; 8; 9].

(** [P] holds of every number with five decimal digits taken from [ds]. *)
Definition forallb5 (P : Z -> bool) (ds : list Z) : bool :=
  forallb (fun a => forallb (fun b => forallb (fun c =>
    forallb (fun d => forallb (fun e =>
      P (10000 * a + 1000 * b + 100 * c + 10 * d + e)) ds) ds) ds) ds) ds.

(** A step of a loop either runs into undefined behaviour or keeps [P]. *)
Definition fails_or_keeps {S : Type} (P : S -> Prop) (r : result S) : Prop :=
  r = Undef \/ exists t, r = Ok t /\ P t.

(** The interior cells [T(x, y)], [1 <= x, y <= N], of a square grid, row by
    row. *)
Definition interior (st : state) : list real_t :=
  y ← seqZ 1 (N st); x ← seqZ 1 (N st); [get (temp0 st) (index st x y)].

(** Evaluation of the program on closed inputs, conjunct by conjunct. *)
Ltac evaluate :=
  repeat lazymatch goal with |- _ /\ _ => split end;
  vm_compute; reflexivity.

(** Two cells are different because their coordinates are; [inj] is the
    injectivity of the indexing. *)
Ltac index_neq inj :=
  let Heq := fresh "Heq" in
  intros Heq; apply inj in Heq; lia.

(** Bounds and differences of cell indices in a block of [rows + 2] rows. *)
Ltac index_arith rows st :=
  unfold index in *;
  assert (N st <= rows * N st) by nia;
  destruct (decide (rows = 1)) as [->|?];
  [lia|assert (2 * N st <= rows * N st) by nia; repeat split; nia].

(** Facts about closed terms, by evaluation. *)
Ltac closed_fact :=
  vm_compute;
  lazymatch goal with
  | |- _ = _ => reflexivity
  | |- _ /\ _ => split; discriminate
  | |- _ => discriminate
  end.

(** * Properties *)

(** ** The environment model on small inputs *)

Example MPI_Dims_create_small :
  map MPI_Dims_create [1; 2; 3; 4; 6; 8; 9; 12]
  = [(1, 1); (2, 1); (3, 1); (2, 2); (3, 2); (4, 2); (3, 3); (4, 3)].
Proof. reflexivity. Qed.

Example MPI_Cart_coords_3x3 :
  map (MPI_Cart_coords 3) [0; 1; 2; 3; 4; 8]
  = [(0, 0); (0, 1); (0, 2); (1, 0); (1, 1); (2, 2)].
Proof. reflexivity. Qed.

Example snapshot_filename_small :
  map snapshot_filename [0; 7; 12345; 123456]
  = ["data/00000.bin"; "data/00007.bin"; "data/12345.bin";
     "data/123456.bin"]%string.
Proof. reflexivity. Qed.

Example real_of_int_small :
  map real_of_int [0; 2; 16; -3] = [0; 2; 16; -3]%float.
Proof. reflexivity. Qed.

(** ** The result monad and the loops *)

Lemma int_div_Ok a b : b <> 0 -> int_div a b = Ok (Z.quot a b).
Proof. intros H. unfold int_div. by destruct (Z.eqb_spec b 0). Qed.

Lemma int_rem_Ok a b : b <> 0 -> int_rem a b = Ok (Z.rem a b).
Proof. intros H. unfold int_rem. by destruct (Z.eqb_spec b 0). Qed.

Lemma quot_le_self a b : 0 <= a -> 1 <= b -> Z.quot a b <= a.
Proof.
  intros Ha Hb. rewrite Z.quot_div_nonneg by lia.
  apply Z.div_le_upper_bound; nia.
Qed.

Lemma bind_Ok {A B : Type} (a : A) (k : A -> result B) : Ok a ≫= k = k a.
Proof. reflexivity. Qed.

Lemma bind_Ok_inv {A B : Type} (m : result A) (k : A -> result B) (b : B) :
  m ≫= k = Ok b -> exists a, m = Ok a /\ k a = Ok b.
Proof. destruct m as [a| | |]; cbn; intros H; try discriminate. by exists a. Qed.

Section Loops.
Context {S : Type}.
Implicit Types (body : Z -> S -> result S) (s : S).

Lemma for_count_inv (P : Z -> S -> Prop) body n i s :
  P i s ->
  (forall j t, i <= j < i + Z.of_nat n -> P j t ->
     exists t', body j t = Ok t' /\ P (j + 1) t') ->
  exists s', for_count n i body s = Ok s' /\ P (i + Z.of_nat n) s'.
Proof.
  revert i s. induction n as [|n IH]; intros i s Hi Hstep.
  - exists s. split; [reflexivity|]. by replace (i + Z.of_nat 0) with i by lia.
  - destruct (Hstep i s) as (t & Ht & HP); [lia|done|].
    destruct (IH (i + 1) t) as (s' & Hs' & HP'); [done| |].
    + intros j u Hj. apply Hstep. lia.
    + exists s'. split.
      * cbn [for_count]. rewrite Ht. exact Hs'.
      * by replace (i + Z.of_nat (Datatypes.S n)) with (i + 1 + Z.of_nat n) by lia.
Qed.

(** The invariant rule of [for (i = lo; i <= hi; i++)]. *)
Lemma for_loop_inv (P : Z -> S -> Prop) body lo hi s :
  P lo s ->
  (forall j t, lo <= j <= hi -> P j t ->
     exists t', body j t = Ok t' /\ P (j + 1) t') ->
  exists s', for_loop lo hi body s = Ok s' /\ P (Z.max lo (hi + 1)) s'.
Proof.
  intros H0 Hstep. unfold for_loop.
  destruct (for_count_inv P body (Z.to_nat (hi - lo + 1)) lo s) as (s' & Hs' & HP);
    [done| |].
  - intros j t Hj. apply Hstep. lia.
  - exists s'. split; [done|].
    by replace (Z.max lo (hi + 1)) with (lo + Z.of_nat (Z.to_nat (hi - lo + 1))) by lia.
Qed.

(** Two nested loops over the cells [1..cols] x [1..rows], row by row. *)
Lemma nested_loop_inv (Inv : Z -> Z -> S -> Prop) (body : Z -> Z -> S -> result S)
    rows cols s :
  Inv 1 1 s ->
  (forall y x t, 1 <= y <= rows -> 1 <= x <= cols -> Inv y x t ->
     exists t', body y x t = Ok t' /\ Inv y (x + 1) t') ->
  (forall y t, 1 <= y <= rows -> Inv y (Z.max 1 (cols + 1)) t -> Inv (y + 1) 1 t) ->
  exists s', for_loop 1 rows (fun y => for_loop 1 cols (body y)) s = Ok s'
             /\ Inv (Z.max 1 (rows + 1)) 1 s'.
Proof.
  intros H0 Hcell Hrow.
  apply (for_loop_inv (fun y t => Inv y 1 t)); [done|].
  intros y t Hy Ht.
  destruct (for_loop_inv (fun x u => Inv y x u) (body y) 1 cols t) as (t' & Ht' & HI);
    [done| |].
  - intros x u Hx Hu. by apply Hcell.
  - exists t'. split; [done|]. by apply Hrow.
Qed.

(** What every step of a loop preserves, the loop preserves. *)
Lemma for_count_preserves {V : Type} (f : S -> V) body n i s s' :
  (forall j t t', body j t = Ok t' -> f t' = f t) ->
  for_count n i body s = Ok s' -> f s' = f s.
Proof.
  intros Hbody. revert i s. induction n as [|n IH]; intros i s; cbn [for_count].
  - by intros [= ->].
  - intros H. apply bind_Ok_inv in H as (t & Ht & H).
    rewrite (IH _ _ H). by apply (Hbody i).
Qed.

Lemma for_loop_preserves {V : Type} (f : S -> V) body lo hi s s' :
  (forall j t t', body j t = Ok t' -> f t' = f t) ->
  for_loop lo hi body s = Ok s' -> f s' = f s.
Proof. intros Hbody. apply for_count_preserves, Hbody. Qed.

End Loops.

(** ** Blocks *)

Lemma load_get (b : buffer) i :
  0 <= i < Z.of_nat (length b) -> load b i = Ok (get b i).
Proof.
  intros Hi. unfold load, get, in_bounds.
  destruct (Z.leb_spec 0 i); [|lia].
  destruct (Z.ltb_spec i (Z.of_nat (length b))); [|lia].
  cbn. destruct (lookup_lt_is_Some_2 b (Z.to_nat i)) as [v Hv]; [lia|].
  by rewrite Hv.
Qed.

Lemma store_insert (b : buffer) i v :
  0 <= i < Z.of_nat (length b) -> store b i v = Ok (<[Z.to_nat i := v]> b).
Proof.
  intros Hi. unfold store, in_bounds.
  destruct (Z.leb_spec 0 i); [|lia].
  by destruct (Z.ltb_spec i (Z.of_nat (length b))); [|lia].
Qed.

Lemma store_Ok_inv (b b' : buffer) i v :
  store b i v = Ok b' ->
  0 <= i < Z.of_nat (length b) /\ b' = <[Z.to_nat i := v]> b.
Proof.
  unfold store, in_bounds.
  destruct (Z.leb_spec 0 i); [|discriminate].
  destruct (Z.ltb_spec i (Z.of_nat (length b))); [|discriminate].
  cbn. intros [= <-]. split; [lia|done].
Qed.

Lemma get_insert_eq (b : buffer) i v :
  0 <= i < Z.of_nat (length b) -> get (<[Z.to_nat i := v]> b) i = v.
Proof.
  intros Hi. unfold get. rewrite list_lookup_insert_eq by lia. reflexivity.
Qed.

Lemma get_insert_ne (b : buffer) i j v :
  0 <= i -> 0 <= j -> i <> j -> get (<[Z.to_nat i := v]> b) j = get b j.
Proof.
  intros Hi Hj Hne. unfold get. rewrite list_lookup_insert_ne by lia. reflexivity.
Qed.

Lemma index_nonneg st x y : 0 <= N st -> 0 <= x -> 0 <= y -> 0 <= index st x y.
Proof.
  intros HN Hx Hy. unfold index.
  assert (0 <= y * (N st + 2)) by (apply Z.mul_nonneg_nonneg; lia). lia.
Qed.

Lemma load_lookup (b : buffer) i v :
  0 <= i -> b !! Z.to_nat i = Some v -> load b i = Ok v.
Proof.
  intros Hi Hv. unfold load, in_bounds.
  apply lookup_lt_Some in Hv as Hlt. rewrite Hv.
  destruct (Z.leb_spec 0 i); [|lia].
  by destruct (Z.ltb_spec i (Z.of_nat (length b))); [|lia].
Qed.

Lemma length_malloc junk n : length (malloc junk n) = Z.to_nat n.
Proof. unfold malloc. by rewrite length_map, length_seq. Qed.

Lemma lookup_malloc junk n (i : nat) :
  (i < Z.to_nat n)%nat -> malloc junk n !! i = Some (junk i).
Proof.
  intros Hi. unfold malloc. rewrite list_lookup_fmap, lookup_seq_lt by done.
  reflexivity.
Qed.

Lemma set_temp1_id st : set_temp1 st (temp1 st) = st.
Proof. by destruct st. Qed.

Lemma set_temp0_id st : set_temp0 st (temp0 st) = st.
Proof. by destruct st. Qed.

(** ** Filling a block cell by cell *)

Section Filled.
Variables (stride cols : Z) (val : Z -> Z -> real_t) (b0 : buffer).

Lemma filled_start : filled stride cols val b0 1 1 b0.
Proof.
  split; [done|]. split; [|done].
  intros x' y' [? [?|(? & ? & ?)]]; lia.
Qed.

Lemma filled_next_row y b :
  filled stride cols val b0 y (Z.max 1 (cols + 1)) b ->
  filled stride cols val b0 (y + 1) 1 b.
Proof.
  intros (Hlen & Hin & Hout). split; [done|]. split.
  - intros x' y' Hv. apply Hin. destruct Hv as [? [?|(? & ? & ?)]]; [|lia].
    split; [done|]. destruct (decide (y' = y)); [right|left]; lia.
  - intros i Hi. apply Hout. intros x' y' Hv. apply Hi.
    destruct Hv as [? [?|(? & ? & ?)]]; split; try done; left; lia.
Qed.

Lemma cell_inj x y x' y' :
  0 <= x < stride -> 0 <= x' < stride -> 0 <= y -> 0 <= y' ->
  cell stride x y = cell stride x' y' -> x = x' /\ y = y'.
Proof.
  unfold cell. intros Hx Hx' Hy Hy' Heq.
  assert (y * stride + x = y' * stride + x') as E by nia.
  assert (y = y') by nia. subst. lia.
Qed.

Lemma filled_step y x b :
  cols < stride -> 1 <= y -> 1 <= x <= cols ->
  (cell stride x y < length b0)%nat ->
  filled stride cols val b0 y x b ->
  filled stride cols val b0 y (x + 1) (<[cell stride x y := val x y]> b).
Proof.
  intros Hs Hy Hx Hb (Hlen & Hin & Hout).
  split; [by rewrite length_insert|]. split.
  - intros x' y' Hv. destruct (decide (x' = x /\ y' = y)) as [[-> ->]|Hne].
    + apply list_lookup_insert_eq. by rewrite Hlen.
    + rewrite list_lookup_insert_ne.
      * apply Hin.
        destruct Hv as [? [?|(? & ? & ?)]]; split; try done; [by left|right; lia].
      * intros Heq. apply Hne.
        destruct Hv as [? [?|(? & ? & ?)]]; apply cell_inj in Heq; lia.
  - intros i Hi. rewrite list_lookup_insert_ne.
    + apply Hout. intros x' y' Hv. apply Hi.
      destruct Hv as [? [?|(? & ? & ?)]]; split; try done; [by left|right; lia].
    + intros <-. apply (Hi x y); [|done]. split; [done|right; lia].
Qed.

Lemma filled_done rows b :
  filled stride cols val b0 (Z.max 1 (rows + 1)) 1 b ->
  length b = length b0 /\
  (forall x y, 1 <= x <= cols -> 1 <= y <= rows ->
     b !! cell stride x y = Some (val x y)) /\
  (forall i : nat,
     (forall x y, 1 <= x <= cols -> 1 <= y <= rows -> i <> cell stride x y) ->
     b !! i = b0 !! i).
Proof.
  intros (Hlen & Hin & Hout). split; [done|]. split.
  - intros x y Hx Hy. apply Hin. split; [done|left; lia].
  - intros i Hi. apply Hout. intros x' y' [? [?|(? & ? & ?)]]; [|lia].
    apply Hi; lia.
Qed.

End Filled.

(** ** [time_step] *)

Lemma time_step_cell_spec st b x y :
  0 <= N st -> 1 <= x <= N st -> 1 <= y ->
  (y + 2) * (N st + 2) <= Z.of_nat (length (temp0 st)) ->
  (y + 2) * (N st + 2) <= Z.of_nat (length b) ->
  (y + 2) * (N st + 2) <= Z.of_nat (length (thermal_diffusivity st)) ->
  time_step_cell y x (set_temp1 st b)
  = Ok (set_temp1 st (<[Z.to_nat (index st x y) := stencil_at st x y]> b)).
Proof.
  intros HN Hx Hy H0 H1 H2.
  unfold time_step_cell, T, THERMAL_DIFFUSIVITY, set_T_next.
  cbn [temp0 temp1 thermal_diffusivity dt set_temp1].
  change (index (set_temp1 st b)) with (index st).
  unfold index in *.
  rewrite !load_get by nia. cbn.
  rewrite store_insert by nia. reflexivity.
Qed.

(** [time_step] stores the stencil value in the cells [1..N/size] x
    [1..M/size] of [temp[1]] and changes nothing else, when the three blocks
    hold the rows it reads. *)
Lemma time_step_spec (st : state) :
  1 <= size st -> 0 <= N st ->
  (Z.quot (M st) (size st) + 2) * (N st + 2) <= Z.of_nat (length (temp0 st)) ->
  (Z.quot (M st) (size st) + 2) * (N st + 2) <= Z.of_nat (length (temp1 st)) ->
  (Z.quot (M st) (size st) + 2) * (N st + 2)
    <= Z.of_nat (length (thermal_diffusivity st)) ->
  exists b,
    time_step st = Ok (set_temp1 st b) /\
    length b = length (temp1 st) /\
    (forall x y, 1 <= x <= Z.quot (N st) (size st) ->
                 1 <= y <= Z.quot (M st) (size st) ->
       b !! Z.to_nat (index st x y) = Some (stencil_at st x y)) /\
    (forall i : nat,
       (forall x y, 1 <= x <= Z.quot (N st) (size st) ->
                    1 <= y <= Z.quot (M st) (size st) ->
          i <> Z.to_nat (index st x y)) ->
       b !! i = temp1 st !! i).
Proof.
  intros Hsize HN H0 H1 H2. unfold time_step.
  rewrite !int_div_Ok by lia. cbn.
  set (rows := Z.quot (M st) (size st)) in *.
  set (cols := Z.quot (N st) (size st)) in *.
  assert (cols <= N st) by (apply quot_le_self; lia).
  destruct (nested_loop_inv
    (fun y x t => exists b, t = set_temp1 st b /\
       filled (N st + 2) cols (stencil_at st) (temp1 st) y x b)
    time_step_cell rows cols st) as (t & Ht & b & -> & Hb).
  - exists (temp1 st). split; [by rewrite set_temp1_id|apply filled_start].
  - intros y x t Hy Hx (b & -> & Hb).
    assert (length b = length (temp1 st)) as Hlen by apply Hb.
    exists (set_temp1 st (<[Z.to_nat (index st x y) := stencil_at st x y]> b)). split.
    + apply time_step_cell_spec; try lia; nia.
    + eexists. split; [reflexivity|].
      apply (filled_step (N st + 2) cols (stencil_at st) (temp1 st) y x b);
        try lia; [|done].
      unfold cell. nia.
  - intros y t Hy (b & -> & Hb). exists b. split; [done|]. by apply filled_next_row.
  - exists b. split; [done|].
    by apply (filled_done (N st + 2) cols (stencil_at st) (temp1 st) rows).
Qed.

(** ** [domain_init] *)

Section DomainInit.
Variable sin : real_t -> real_t.
Variables junk0 junk1 junk2 : nat -> real_t.

Lemma domain_init_cell_spec st b0 b1 b2 ox oy x y :
  0 <= index st x y < Z.of_nat (length b0) ->
  0 <= index st x y < Z.of_nat (length b1) ->
  0 <= index st x y < Z.of_nat (length b2) ->
  domain_init_cell sin ox oy y x (with_buffers st b0 b1 b2)
  = Ok (with_buffers st
          (<[Z.to_nat (index st x y) := initial_temperature sin ox oy x y]> b0)
          (<[Z.to_nat (index st x y) := initial_temperature sin ox oy x y]> b1)
          (<[Z.to_nat (index st x y) := initial_diffusivity sin (N st) ox oy x y]> b2)).
Proof.
  intros H0 H1 H2.
  unfold domain_init_cell, set_T, set_T_next, set_THERMAL_DIFFUSIVITY.
  cbn [temp0 temp1 thermal_diffusivity with_buffers set_temp0 set_temp1
       set_thermal_diffusivity N].
  change (index (with_buffers st b0 b1 b2)) with (index st).
  rewrite store_insert by done. cbn.
  change (index (set_temp0 (with_buffers st b0 b1 b2) ?b)) with (index st).
  rewrite store_insert by done. cbn.
  rewrite store_insert by done. reflexivity.
Qed.

(** [domain_init] sets the cells [1..local_row] x [1..local_col] of the three
    blocks and leaves every other cell as [malloc] returned it, when the last
    cell it writes lies inside the blocks. *)
Lemma domain_init_spec (st : state) :
  let local_col := Z.quot (M st) (dims0 st) in
  let local_row := Z.quot (N st) (dims1 st) in
  let cells := (local_col + 2) * (local_row + 2) in
  let ox := local_row * coord0 st in
  let oy := local_col * coord1 st in
  dims0 st <> 0 -> dims1 st <> 0 ->
  local_row <= N st ->
  (1 <= local_col -> 1 <= local_row ->
     local_col * (N st + 2) + local_row < cells) ->
  exists b0 b1 b2,
    domain_init sin junk0 junk1 junk2 st
      = Ok (with_buffers (allocated junk0 junk1 junk2 st) b0 b1 b2) /\
    (length b0 = Z.to_nat cells /\ length b1 = Z.to_nat cells
       /\ length b2 = Z.to_nat cells) /\
    (forall x y, 1 <= x <= local_row -> 1 <= y <= local_col ->
       b0 !! Z.to_nat (index st x y) = Some (initial_temperature sin ox oy x y) /\
       b1 !! Z.to_nat (index st x y) = Some (initial_temperature sin ox oy x y) /\
       b2 !! Z.to_nat (index st x y)
         = Some (initial_diffusivity sin (N st) ox oy x y)) /\
    (forall i : nat,
       (forall x y, 1 <= x <= local_row -> 1 <= y <= local_col ->
          i <> Z.to_nat (index st x y)) ->
       b0 !! i = malloc junk0 cells !! i /\
       b1 !! i = malloc junk1 cells !! i /\
       b2 !! i = malloc junk2 cells !! i).
Proof.
  intros local_col local_row cells ox oy Hd0 Hd1 Hrow Hfit.
  unfold domain_init. rewrite !int_div_Ok by done. cbn.
  fold local_col local_row cells ox oy.
  set (st1 := allocated junk0 junk1 junk2 st).
  set (tv := initial_temperature sin ox oy).
  set (dv := initial_diffusivity sin (N st) ox oy).
  destruct (nested_loop_inv
    (fun y x t => exists b0 b1 b2, t = with_buffers st1 b0 b1 b2 /\
       filled (N st + 2) local_row tv (malloc junk0 cells) y x b0 /\
       filled (N st + 2) local_row tv (malloc junk1 cells) y x b1 /\
       filled (N st + 2) local_row dv (malloc junk2 cells) y x b2)
    (domain_init_cell sin ox oy) local_col local_row st1)
    as (t & Ht & b0 & b1 & b2 & -> & F0 & F1 & F2).
  - exists (malloc junk0 cells), (malloc junk1 cells), (malloc junk2 cells).
    split; [reflexivity|]. split; [|split]; apply filled_start.
  - intros y x t Hy Hx (b0 & b1 & b2 & -> & F0 & F1 & F2).
    assert (length b0 = Z.to_nat cells) as L0
      by (destruct F0 as [-> _]; apply length_malloc).
    assert (length b1 = Z.to_nat cells) as L1
      by (destruct F1 as [-> _]; apply length_malloc).
    assert (length b2 = Z.to_nat cells) as L2
      by (destruct F2 as [-> _]; apply length_malloc).
    assert (0 <= index st x y < cells) as Hin by (unfold index; nia).
    eexists. split.
    + change (index st1) with (index st).
      apply (domain_init_cell_spec st1); change (index st1) with (index st); lia.
    + change (N st1) with (N st). change (index st1) with (index st).
      eexists _, _, _. split; [reflexivity|].
      split; [|split];
        (apply (filled_step (N st + 2) local_row _ _ y x);
         [lia|lia|lia|rewrite length_malloc; unfold cell, index in *; lia|done]).
  - intros y t Hy (b0 & b1 & b2 & -> & F0 & F1 & F2).
    exists b0, b1, b2. split; [done|]. split; [|split]; by apply filled_next_row.
  - exists b0, b1, b2.
    apply (filled_done _ _ _ _ local_col) in F0 as (L0 & I0 & O0).
    apply (filled_done _ _ _ _ local_col) in F1 as (L1 & I1 & O1).
    apply (filled_done _ _ _ _ local_col) in F2 as (L2 & I2 & O2).
    rewrite length_malloc in L0, L1, L2.
    split; [exact Ht|]. split; [done|]. split.
    + intros x y Hx Hy. split; [by apply I0|]. split; [by apply I1|by apply I2].
    + intros i Hi. split; [by apply O0|]. split; [by apply O1|by apply O2].
Qed.

End DomainInit.

(** ** The iteration loop *)

Lemma iteration_body_spec (iteration : Z) (st : state) :
  snapshot_frequency st <> 0 ->
  exists st',
    iteration_body iteration st = Ok st' /\
    temp0 st' = temp1 st /\ temp1 st' = temp0 st /\
    thermal_diffusivity st' = thermal_diffusivity st /\
    files st' = files st /\
    snapshot_frequency st' = snapshot_frequency st.
Proof.
  intros Hf. unfold iteration_body. rewrite int_rem_Ok by done. cbn.
  eexists. split; [reflexivity|]. by destruct (_ && _).
Qed.

Lemma iterate_spec (st : state) :
  snapshot_frequency st <> 0 ->
  exists st',
    iterate st = Ok st' /\
    (temp0 st', temp1 st') =
      Nat.iter (Z.to_nat (max_iteration st + 1)) exchange (temp0 st, temp1 st) /\
    thermal_diffusivity st' = thermal_diffusivity st /\
    files st' = files st.
Proof.
  intros Hf. unfold iterate.
  destruct (for_loop_inv
    (fun j t => (temp0 t, temp1 t) = Nat.iter (Z.to_nat j) exchange (temp0 st, temp1 st)
                /\ thermal_diffusivity t = thermal_diffusivity st
                /\ files t = files st
                /\ snapshot_frequency t = snapshot_frequency st)
    iteration_body 0 (max_iteration st) st) as (st' & Hr & Hb & Htd & Hfs & _).
  - done.
  - intros j t Hj (Hb & Htd & Hfs & Hsf).
    destruct (iteration_body_spec j t) as (t' & Ht' & E0 & E1 & E2 & E3 & E4);
      [congruence|].
    exists t'. split; [done|].
    replace (Z.to_nat (j + 1)) with (Datatypes.S (Z.to_nat j)) by lia.
    rewrite Nat.iter_succ, <- Hb, E0, E1, E2, E3, E4. done.
  - exists st'. split; [done|]. split; [|done].
    rewrite Hb. f_equal. lia.
Qed.

Lemma progress_lines_succ st n :
  0 <= n ->
  progress_lines st (n + 1)
  = progress_lines st n
    ++ (if (Z.rem n (snapshot_frequency st) =? 0) && (rank st =? 0)
        then [PrintIteration n (max_iteration st)] else []).
Proof.
  intros Hn. unfold progress_lines.
  destruct (rank st =? 0); [|by rewrite andb_false_r].
  rewrite andb_true_r, seqZ_app by lia. rewrite filter_app, fmap_app. f_equal.
  change (seqZ (0 + n) 1) with [0 + n]. rewrite Z.add_0_l.
  rewrite filter_cons, filter_nil.
  destruct (Z.eqb_spec (Z.rem n (snapshot_frequency st)) 0) as [E|E].
  - by rewrite decide_True.
  - by rewrite decide_False.
Qed.

Lemma iteration_body_files (iteration : Z) (st st' : state) :
  iteration_body iteration st = Ok st' -> files st' = files st.
Proof.
  unfold iteration_body. intros H. apply bind_Ok_inv in H as (r & _ & H).
  injection H as <-. by destruct (_ && _).
Qed.

Lemma domain_init_cell_files sin ox oy y x (st st' : state) :
  domain_init_cell sin ox oy y x st = Ok st' -> files st' = files st.
Proof.
  unfold domain_init_cell, set_T, set_T_next, set_THERMAL_DIFFUSIVITY.
  intros H.
  apply bind_Ok_inv in H as (t1 & H1 & H).
  apply bind_Ok_inv in H1 as (b0 & _ & [= <-]).
  apply bind_Ok_inv in H as (t2 & H2 & H).
  apply bind_Ok_inv in H2 as (b1 & _ & [= <-]).
  apply bind_Ok_inv in H as (b2 & _ & [= <-]).
  reflexivity.
Qed.

Lemma domain_init_files sin j0 j1 j2 (st st' : state) :
  domain_init sin j0 j1 j2 st = Ok st' -> files st' = files st.
Proof.
  unfold domain_init. intros H.
  apply bind_Ok_inv in H as (lc & _ & H).
  apply bind_Ok_inv in H as (lr & _ & H).
  apply (for_loop_preserves files) in H; [exact H|].
  intros y t t' Ht. apply (for_loop_preserves files) in Ht; [exact Ht|].
  intros x u u'. apply domain_init_cell_files.
Qed.

Lemma startup_files parsed (st st' : state) :
  startup parsed st = Ok st' -> files st' = files st.
Proof.
  unfold startup, parse_arguments, create_topology. intros H.
  apply bind_Ok_inv in H as (t & Ht & H).
  destruct parsed as [o|]; [|discriminate].
  injection H as <-. by destruct (rank st =? 0); injection Ht as <-.
Qed.

Lemma run_files sin j0 j1 j2 parsed (st st' : state) :
  run sin j0 j1 j2 parsed st = Ok st' -> files st' = files st.
Proof.
  unfold run, initialise. intros H.
  apply bind_Ok_inv in H as (t & Ht & H).
  apply bind_Ok_inv in Ht as (u & Hu & Ht).
  apply (for_loop_preserves files) in H; [|apply iteration_body_files].
  rewrite H. rewrite (domain_init_files _ _ _ _ _ _ Ht). by apply (startup_files parsed).
Qed.

(** ** Loops that copy cells inside [temp[0]] *)

Section CopyLoops.
Variables (st : state) (b : buffer) (n : Z).

(** A loop that copies the cell [src j] to the cell [dst j]. *)
Lemma copy_loop (src dst : Z -> Z) (body : Z -> state -> result state) :
  (forall j b', 1 <= j <= n -> length b' = length b ->
     body j (set_temp0 st b')
     = v ← load b' (src j); b'' ← store b' (dst j) v; Ok (set_temp0 st b'')) ->
  (forall j, 1 <= j <= n -> 0 <= src j < Z.of_nat (length b)) ->
  (forall j, 1 <= j <= n -> 0 <= dst j < Z.of_nat (length b)) ->
  (forall j j', 1 <= j' < j -> j <= n -> src j <> dst j') ->
  (forall j j', 1 <= j' < j -> j <= n -> dst j <> dst j') ->
  exists b',
    for_loop 1 n body (set_temp0 st b) = Ok (set_temp0 st b') /\
    length b' = length b /\
    (forall j, 1 <= j <= n -> get b' (dst j) = get b (src j)) /\
    (forall i, 0 <= i -> (forall j, 1 <= j <= n -> i <> dst j) -> get b' i = get b i).
Proof.
  intros Hbody Hsrc Hdst Hfresh Hinj.
  destruct (for_loop_inv
    (fun k t => exists b', t = set_temp0 st b' /\ length b' = length b /\
       (forall j, 1 <= j < k -> get b' (dst j) = get b (src j)) /\
       (forall i, 0 <= i -> (forall j, 1 <= j < k -> i <> dst j) -> get b' i = get b i))
    body 1 n (set_temp0 st b)) as (t & Ht & b' & -> & Hlen & Hin & Hout).
  - exists b. split; [done|]. split; [done|]. split; [intros; lia|done].
  - intros k t Hk (b' & -> & Hlen & Hin & Hout).
    rewrite Hbody by done.
    rewrite load_get by (rewrite Hlen; by apply Hsrc). rewrite bind_Ok.
    rewrite store_insert by (rewrite Hlen; by apply Hdst). rewrite bind_Ok.
    eexists. split; [reflexivity|]. eexists. split; [reflexivity|].
    split; [by rewrite length_insert|]. split.
    + intros j Hj. destruct (decide (j = k)) as [->|Hne].
      * rewrite get_insert_eq by (rewrite Hlen; by apply Hdst).
        apply Hout; [by apply Hsrc|]. intros j' Hj'. apply Hfresh; lia.
      * rewrite get_insert_ne; [apply Hin; lia|by apply Hdst|apply Hdst; lia|].
        apply Hinj; lia.
    + intros i Hi Hne. rewrite get_insert_ne; [|by apply Hdst|done|].
      * apply Hout; [done|]. intros j Hj. apply Hne. lia.
      * intros <-. apply (Hne k); [lia|done].
  - exists b'. split; [done|]. split; [done|]. split.
    + intros j Hj. apply Hin. lia.
    + intros i Hi Hne. apply Hout; [done|]. intros j Hj. apply Hne. lia.
Qed.

(** A loop that copies [src1 j] to [dst1 j] and then [src2 j] to [dst2 j];
    the second source may be the first destination. *)
Lemma copy2_loop (src1 dst1 src2 dst2 : Z -> Z)
    (body : Z -> state -> result state) :
  (forall j b', 1 <= j <= n -> length b' = length b ->
     body j (set_temp0 st b')
     = v ← load b' (src1 j); b1 ← store b' (dst1 j) v;
       w ← load b1 (src2 j); b2 ← store b1 (dst2 j) w; Ok (set_temp0 st b2)) ->
  (forall j, 1 <= j <= n ->
     0 <= src1 j < Z.of_nat (length b) /\ 0 <= dst1 j < Z.of_nat (length b) /\
     0 <= src2 j < Z.of_nat (length b) /\ 0 <= dst2 j < Z.of_nat (length b)) ->
  (forall j j', 1 <= j' < j -> j <= n ->
     src1 j <> dst1 j' /\ src1 j <> dst2 j' /\ src2 j <> dst1 j' /\ src2 j <> dst2 j') ->
  (forall j j', 1 <= j' < j -> j <= n ->
     dst1 j <> dst1 j' /\ dst2 j <> dst2 j' /\ dst1 j <> dst2 j' /\ dst2 j <> dst1 j') ->
  (forall j, 1 <= j <= n -> dst1 j <> dst2 j) ->
  exists b',
    for_loop 1 n body (set_temp0 st b) = Ok (set_temp0 st b') /\
    length b' = length b /\
    (forall j, 1 <= j <= n ->
       get b' (dst1 j) = get b (src1 j) /\
       get b' (dst2 j)
       = if decide (src2 j = dst1 j) then get b (src1 j) else get b (src2 j)) /\
    (forall i, 0 <= i -> (forall j, 1 <= j <= n -> i <> dst1 j /\ i <> dst2 j) ->
       get b' i = get b i).
Proof.
  intros Hbody Hrange Hfresh Hinj Hdiff.
  destruct (for_loop_inv
    (fun k t => exists b', t = set_temp0 st b' /\ length b' = length b /\
       (forall j, 1 <= j < k ->
          get b' (dst1 j) = get b (src1 j) /\
          get b' (dst2 j)
          = if decide (src2 j = dst1 j) then get b (src1 j) else get b (src2 j)) /\
       (forall i, 0 <= i -> (forall j, 1 <= j < k -> i <> dst1 j /\ i <> dst2 j) ->
          get b' i = get b i))
    body 1 n (set_temp0 st b)) as (t & Ht & b' & -> & Hlen & Hin & Hout).
  - exists b. split; [done|]. split; [done|]. split; [intros; lia|done].
  - intros k t Hk (b' & -> & Hlen & Hin & Hout).
    destruct (Hrange k Hk) as (Hs1 & Hd1 & Hs2 & Hd2).
    rewrite Hbody by done.
    rewrite load_get by lia. rewrite bind_Ok.
    rewrite store_insert by lia. rewrite bind_Ok.
    rewrite load_get by (rewrite length_insert; lia). rewrite bind_Ok.
    rewrite store_insert by (rewrite length_insert; lia). rewrite bind_Ok.
    assert (get b' (src1 k) = get b (src1 k)) as E1.
    { apply Hout; [lia|]. intros j Hj. destruct (Hfresh k j) as (? & ? & _); [lia..|done]. }
    assert (get (<[Z.to_nat (dst1 k) := get b' (src1 k)]> b') (src2 k)
            = if decide (src2 k = dst1 k) then get b (src1 k) else get b (src2 k)) as E2.
    { destruct (decide (src2 k = dst1 k)) as [->|Hne].
      - rewrite get_insert_eq by lia. done.
      - rewrite get_insert_ne by lia. apply Hout; [lia|].
        intros j Hj. destruct (Hfresh k j) as (_ & _ & ? & ?); [lia..|done]. }
    rewrite E2, E1.
    eexists. split; [reflexivity|]. eexists. split; [reflexivity|].
    split; [by rewrite !length_insert|]. split.
    + intros j Hj. destruct (decide (j = k)) as [->|Hne].
      * split.
        -- rewrite get_insert_ne; [|lia|lia|by (specialize (Hdiff k Hk))].
           by rewrite get_insert_eq by lia.
        -- by rewrite get_insert_eq by (rewrite length_insert; lia).
      * destruct (Hrange j) as (_ & Hd1j & _ & Hd2j); [lia|].
        destruct (Hinj k j) as (? & ? & ? & ?); [lia..|].
        rewrite !get_insert_ne by (try lia; done).
        apply Hin. lia.
    + intros i Hi Hne. destruct (Hne k) as [? ?]; [lia|].
      rewrite !get_insert_ne by (try lia; done).
      apply Hout; [done|]. intros j Hj. apply Hne. lia.
  - exists b'. split; [done|]. split; [done|]. split.
    + intros j Hj. apply Hin. lia.
    + intros i Hi Hne. apply Hout; [done|]. intros j Hj. apply Hne. lia.
Qed.

End CopyLoops.

(** ** [boundary_condition] *)

Lemma index_inj (st : state) x y x' y' :
  0 <= x <= N st + 1 -> 0 <= x' <= N st + 1 ->
  index st x y = index st x' y' -> x = x' /\ y = y'.
Proof.
  unfold index. intros Hx Hx' Heq.
  assert (y = y') by nia. subst. lia.
Qed.

Section BoundaryCondition.
Variable st : state.
Variables rows cols : Z.
Hypothesis Hdims0 : dims0 st <> 0.
Hypothesis Hdims1 : dims1 st <> 0.
Hypothesis rows_def : Z.quot (M st) (dims1 st) = rows.
Hypothesis cols_def : Z.quot (N st) (dims0 st) = cols.
Hypothesis Hrows : 1 <= rows.
Hypothesis Hcols : 1 <= cols <= N st.

Lemma boundary_rows_loop (b : buffer) :
  (rows + 2) * (N st + 2) <= Z.of_nat (length b) ->
  exists b',
    for_loop 1 cols boundary_condition_rows (set_temp0 st b) = Ok (set_temp0 st b') /\
    length b' = length b /\
    (forall x, 1 <= x <= cols ->
       get b' (index st x 0) = get b (index st x 2) /\
       get b' (index st x (rows + 1))
       = get b (index st x (if decide (rows = 1) then 2 else rows - 1))) /\
    (forall i, 0 <= i ->
       (forall x, 1 <= x <= cols -> i <> index st x 0 /\ i <> index st x (rows + 1)) ->
       get b' i = get b i).
Proof.
  intros Hlen.
  destruct (copy2_loop st b cols
    (fun x => index st x 2) (fun x => index st x 0)
    (fun x => index st x (rows - 1)) (fun x => index st x (rows + 1))
    boundary_condition_rows) as (b' & Hrun & Hl & Hin & Hout).
  - intros x b' Hx Hb'. unfold boundary_condition_rows, T, set_T.
    cbn [temp0 set_temp0 index N].
    destruct (load b' _) as [v| | |]; [|done..].
    rewrite !bind_Ok.
    destruct (store b' _ v) as [b1| | |]; [|done..].
    rewrite !bind_Ok. cbn [temp0 set_temp0 index N M dims1].
    rewrite int_div_Ok by done. rewrite bind_Ok, rows_def.
    destruct (load b1 _) as [w| | |]; [|done..].
    rewrite !bind_Ok.
    by destruct (store b1 _ w) as [b2| | |].
  - intros x Hx. index_arith rows st.
  - intros x x' Hx' Hx. index_arith rows st.
  - intros x x' Hx' Hx. index_arith rows st.
  - intros x Hx. index_arith rows st.
  - exists b'. split; [done|]. split; [done|]. split; [|done].
    intros x Hx. destruct (Hin x Hx) as [E1 E2]. split; [done|].
    rewrite E2. destruct (decide (rows = 1)) as [E|E].
    + rewrite decide_True; [done|]. rewrite E. done.
    + rewrite decide_False; [done|]. index_arith rows st.
Qed.

Lemma boundary_first_loop (b : buffer) :
  (rows + 2) * (N st + 2) <= Z.of_nat (length b) ->
  exists b',
    for_loop 1 rows boundary_condition_first (set_temp0 st b) = Ok (set_temp0 st b') /\
    length b' = length b /\
    (forall y, 1 <= y <= rows -> get b' (index st 0 y) = get b (index st 2 y)) /\
    (forall i, 0 <= i -> (forall y, 1 <= y <= rows -> i <> index st 0 y) ->
       get b' i = get b i).
Proof.
  intros Hlen.
  apply (copy_loop st b rows (fun y => index st 2 y) (fun y => index st 0 y)).
  - intros y b' Hy Hb'. unfold boundary_condition_first, T, set_T.
    cbn [temp0 set_temp0 index N].
    destruct (load b' _) as [v| | |]; [|done..].
    rewrite !bind_Ok.
    by destruct (store b' _ v) as [b1| | |].
  - intros y Hy. unfold index. nia.
  - intros y Hy. unfold index. nia.
  - intros y y' Hy' Hy. unfold index. nia.
  - intros y y' Hy' Hy. unfold index. nia.
Qed.

Lemma boundary_last_loop (b : buffer) :
  (rows + 2) * (N st + 2) <= Z.of_nat (length b) ->
  exists b',
    for_loop 1 rows boundary_condition_last (set_temp0 st b) = Ok (set_temp0 st b') /\
    length b' = length b /\
    (forall y, 1 <= y <= rows ->
       get b' (index st (cols + 1) y) = get b (index st (cols - 1) y)) /\
    (forall i, 0 <= i -> (forall y, 1 <= y <= rows -> i <> index st (cols + 1) y) ->
       get b' i = get b i).
Proof.
  intros Hlen.
  apply (copy_loop st b rows
           (fun y => index st (cols - 1) y) (fun y => index st (cols + 1) y)).
  - intros y b' Hy Hb'. unfold boundary_condition_last, T, set_T.
    cbn [temp0 set_temp0 index N dims0].
    rewrite int_div_Ok by done. rewrite bind_Ok, cols_def.
    destruct (load b' _) as [v| | |]; [|done..].
    rewrite !bind_Ok.
    by destruct (store b' _ v) as [b1| | |].
  - intros y Hy. unfold index. nia.
  - intros y Hy. unfold index. nia.
  - intros y y' Hy' Hy. unfold index. nia.
  - intros y y' Hy' Hy. unfold index. nia.
Qed.

End BoundaryCondition.

Lemma boundary_condition_spec (st : state) (rows cols : Z) (b : buffer) :
  dims0 st <> 0 -> dims1 st <> 0 ->
  Z.quot (M st) (dims1 st) = rows -> Z.quot (N st) (dims0 st) = cols ->
  1 <= rows -> 1 <= cols <= N st ->
  (rows + 2) * (N st + 2) <= Z.of_nat (length b) ->
  exists b',
    boundary_condition (set_temp0 st b) = Ok (set_temp0 st b') /\
    length b' = length b /\
    (forall x, 1 <= x <= cols ->
       get b' (index st x 0) = get b' (index st x 2) /\
       get b' (index st x (rows + 1)) = get b' (index st x (rows - 1))) /\
    (rank st = 0 -> forall y, 1 <= y <= rows ->
       get b' (index st 0 y) = get b' (index st 2 y)) /\
    (rank st = size st - 1 -> forall y, 1 <= y <= rows ->
       get b' (index st (cols + 1) y) = get b' (index st (cols - 1) y)) /\
    (forall i, 0 <= i ->
       (forall x, 1 <= x <= cols -> i <> index st x 0 /\ i <> index st x (rows + 1)) ->
       (rank st = 0 -> forall y, 1 <= y <= rows -> i <> index st 0 y) ->
       (rank st = size st - 1 -> forall y, 1 <= y <= rows ->
          i <> index st (cols + 1) y) ->
       get b' i = get b i).
Proof.
  intros Hd0 Hd1 Hr Hc Hrows Hcols Hlen.
  unfold boundary_condition. cbn [N dims0 set_temp0].
  rewrite int_div_Ok by done. rewrite bind_Ok, Hc.
  edestruct boundary_rows_loop with (st := st) (rows := rows) (cols := cols) (b := b)
    as (b1 & R1 & L1 & In1 & Out1); [done..|].
  rewrite R1, bind_Ok. cbn [rank size M dims1 set_temp0].
  (* the loop under [rank == 0] *)
  assert (exists b2,
    (if rank st =? 0
     then rows0 ← int_div (M st) (dims1 st);
          for_loop 1 rows0 boundary_condition_first (set_temp0 st b1)
     else Ok (set_temp0 st b1)) = Ok (set_temp0 st b2) /\
    length b2 = length b1 /\
    (rank st = 0 -> forall y, 1 <= y <= rows ->
       get b2 (index st 0 y) = get b1 (index st 2 y)) /\
    (forall i, 0 <= i ->
       (rank st = 0 -> forall y, 1 <= y <= rows -> i <> index st 0 y) ->
       get b2 i = get b1 i)) as (b2 & R2 & L2 & In2 & Out2).
  { destruct (Z.eqb_spec (rank st) 0) as [E|E].
    - rewrite int_div_Ok by done. rewrite bind_Ok, Hr.
      edestruct boundary_first_loop with (st := st) (rows := rows) (cols := cols) (b := b1)
        as (b2 & R2 & L2 & In2 & Out2); [first [done|lia]..|].
      exists b2. split; [done|]. split; [done|]. split; [auto|].
      intros i Hi Hne. apply Out2; auto.
    - exists b1. split; [done|]. split; [done|]. split; [done|done]. }
  rewrite R2, bind_Ok. cbn [rank size M dims1 set_temp0].
  (* the loop under [rank == size - 1] *)
  assert (exists b3,
    (if rank st =? size st - 1
     then rows0 ← int_div (M st) (dims1 st);
          for_loop 1 rows0 boundary_condition_last (set_temp0 st b2)
     else Ok (set_temp0 st b2)) = Ok (set_temp0 st b3) /\
    length b3 = length b2 /\
    (rank st = size st - 1 -> forall y, 1 <= y <= rows ->
       get b3 (index st (cols + 1) y) = get b2 (index st (cols - 1) y)) /\
    (forall i, 0 <= i ->
       (rank st = size st - 1 -> forall y, 1 <= y <= rows ->
          i <> index st (cols + 1) y) ->
       get b3 i = get b2 i)) as (b3 & R3 & L3 & In3 & Out3).
  { destruct (Z.eqb_spec (rank st) (size st - 1)) as [E|E].
    - rewrite int_div_Ok by done. rewrite bind_Ok, Hr.
      edestruct boundary_last_loop with (st := st) (rows := rows) (cols := cols) (b := b2)
        as (b3 & R3 & L3 & In3 & Out3); [first [done|lia]..|].
      exists b3. split; [done|]. split; [done|]. split; [auto|].
      intros i Hi Hne. apply Out3; auto.
    - exists b2. split; [done|]. split; [done|]. split; [done|done]. }
  rewrite R3. exists b3. split; [done|]. split; [congruence|].
  assert (forall x y, 0 <= x -> 0 <= y -> 0 <= index st x y) as Hpos
    by (intros; unfold index; nia).
  (* cells of the columns [1..cols] are not touched by the last two loops *)
  assert (forall x y, 1 <= x <= cols -> 0 <= y ->
            get b3 (index st x y) = get b1 (index st x y)) as Hmid.
  { intros x y Hx Hy. rewrite Out3, Out2; [done|by apply Hpos; lia| |by apply Hpos; lia|].
    - intros _ y' Hy'. index_neq (index_inj st).
    - intros _ y' Hy'. index_neq (index_inj st). }
  split; [|split; [|split]].
  - intros x Hx. rewrite !Hmid by lia.
    destruct (In1 x Hx) as [E0 E1]. rewrite E0, E1. split.
    + destruct (decide (rows = 1)) as [->|Hne]; [done|].
      symmetry. apply Out1; [apply Hpos; lia|].
      intros x' Hx'. split; index_neq (index_inj st).
    + destruct (decide (rows = 1)) as [->|Hne]; [done|].
      symmetry. apply Out1; [apply Hpos; lia|].
      intros x' Hx'. split; index_neq (index_inj st).
  - intros E y Hy.
    rewrite (Out3 (index st 0 y)); [|apply Hpos; lia|intros _ y' Hy'; index_neq (index_inj st)].
    rewrite (In2 E y Hy).
    destruct (decide (rank st = size st - 1 /\ cols = 1)) as [[E' ->]|Hne].
    + pose proof (In3 E' y Hy) as E3.
      change (1 + 1) with 2 in E3. change (1 - 1) with 0 in E3.
      rewrite E3. symmetry. by apply In2.
    + rewrite Out3, Out2; [done|apply Hpos; lia| |apply Hpos; lia|].
      * intros _ y' Hy'. index_neq (index_inj st).
      * intros E' y' Hy'. index_neq (index_inj st).
  - intros E y Hy. rewrite (In3 E y Hy). symmetry.
    apply Out3; [apply Hpos; lia|]. intros _ y' Hy'. index_neq (index_inj st).
  - intros i Hi H1 H2 H3. rewrite Out3, Out2, Out1; auto.
Qed.

(** ** [domain_save] *)

Lemma read_block_Ok (b : buffer) start count :
  0 <= start -> 0 <= count -> start + count <= Z.of_nat (length b) ->
  read_block b start count = Ok (take (Z.to_nat count) (drop (Z.to_nat start) b)).
Proof.
  intros H1 H2 H3. unfold read_block.
  destruct (Z.leb_spec 0 start); [|lia]. destruct (Z.leb_spec 0 count); [|lia].
  by destruct (Z.leb_spec (start + count) (Z.of_nat (length b))); [|lia].
Qed.

Lemma saved_rows_snoc st n :
  0 <= n -> saved_rows st (n + 1) = saved_rows st n ++ saved_row st (n + 1).
Proof.
  intros Hn. unfold saved_rows.
  replace (n + 1) with (n + 1)%Z at 1 by done.
  rewrite seqZ_app by lia. rewrite bind_app. f_equal.
  change (seqZ (1 + n) 1) with ([1 + n] ++ seqZ (1 + n + 1) 0). cbn.
  rewrite app_nil_r. f_equal. lia.
Qed.

Lemma length_saved_row st iter :
  0 <= N st -> 0 <= (M st + 2) * iter + 1 ->
  (M st + 2) * iter + 1 + N st <= Z.of_nat (length (temp0 st)) ->
  length (saved_row st iter) = Z.to_nat (N st).
Proof.
  intros HN H0 H1. unfold saved_row. rewrite length_take, length_drop. lia.
Qed.

Lemma length_saved_rows st n :
  0 <= N st -> 0 <= M st + 2 -> 0 <= n <= N st ->
  (M st + 2) * N st + 1 + N st <= Z.of_nat (length (temp0 st)) ->
  length (saved_rows st n) = Z.to_nat (n * N st).
Proof.
  intros HN HM Hn Hlen. destruct Hn as [Hn0 Hn].
  revert Hn. pattern n. apply natlike_ind; [|clear n Hn0|exact Hn0].
  - intros _. reflexivity.
  - intros n Hn0 IH Hn. change (Z.succ n) with (n + 1).
    assert (0 <= (M st + 2) * (n + 1) <= (M st + 2) * N st) by nia.
    rewrite saved_rows_snoc, length_app, IH, length_saved_row by lia. nia.
Qed.

Lemma set_files_set_files st fs fs' :
  set_files (set_files st fs) fs' = set_files st fs'.
Proof. reflexivity. Qed.

Lemma domain_save_spec (iteration : Z) (st : state) :
  let name := snapshot_filename (Z.quot iteration (snapshot_frequency st)) in
  snapshot_frequency st <> 0 ->
  can_open st name = true ->
  0 <= N st -> 0 <= M st + 2 ->
  (M st + 2) * N st + 1 + N st <= Z.of_nat (length (temp0 st)) ->
  domain_save iteration st
  = Ok (set_files st (<[name := saved_rows st (N st)]> (files st))).
Proof.
  intros name Hf Hopen HN HM Hlen. unfold domain_save.
  rewrite int_div_Ok by done. rewrite bind_Ok. fold name.
  unfold fopen_wb. rewrite Hopen. cbn [N set_files].
  destruct (for_loop_inv
    (fun k t => t = set_files st (<[name := saved_rows st (k - 1)]> (files st)))
    (domain_save_row name) 1 (N st) (set_files st (<[name := []]> (files st))))
    as (t & Ht & ->).
  - reflexivity.
  - intros k t Hk ->. unfold domain_save_row. cbn [temp0 M N set_files].
    assert (0 <= (M st + 2) * k <= (M st + 2) * N st) by nia.
    rewrite read_block_Ok by lia. rewrite bind_Ok.
    eexists. split; [reflexivity|].
    unfold fwrite. cbn [files set_files].
    rewrite lookup_insert_eq, insert_insert_eq. cbn [default from_option id].
    rewrite set_files_set_files.
    replace (k + 1 - 1) with (k - 1 + 1) by lia.
    rewrite saved_rows_snoc by lia.
    replace (k - 1 + 1) with k by lia. reflexivity.
  - rewrite Ht. by replace (Z.max 1 (N st + 1) - 1) with (N st) by lia.
Qed.

(** ** The name of the checkpoint file *)

Lemma forallb5_spec (P : Z -> bool) (ds : list Z) a b c d e :
  forallb5 P ds = true ->
  In a ds -> In b ds -> In c ds -> In d ds -> In e ds ->
  P (10000 * a + 1000 * b + 100 * c + 10 * d + e) = true.
Proof.
  unfold forallb5. intros H Ha Hb Hc Hd He.
  rewrite forallb_forall in H. specialize (H a Ha).
  rewrite forallb_forall in H. specialize (H b Hb).
  rewrite forallb_forall in H. specialize (H c Hc).
  rewrite forallb_forall in H. specialize (H d Hd).
  rewrite forallb_forall in H. exact (H e He).
Qed.

Lemma five_digits_checked : forallb5 five_digits_of decimal_digits = true.
Proof. vm_compute. reflexivity. Qed.

Lemma In_decimal_digits d : 0 <= d <= 9 -> In d decimal_digits.
Proof.
  intros H.
  assert (d = 0 \/ d = 1 \/ d = 2 \/ d = 3 \/ d = 4 \/ d = 5 \/ d = 6 \/ d = 7
          \/ d = 8 \/ d = 9) as Hd by lia.
  unfold decimal_digits. cbn. intuition auto.
Qed.

Lemma decimal_split (n : Z) :
  0 <= n -> exists q r, n = 10 * q + r /\ 0 <= r <= 9 /\ 0 <= q.
Proof.
  intros Hn. exists (n / 10), (n mod 10).
  pose proof (Z.div_mod n 10 ltac:(lia)).
  pose proof (Z.mod_pos_bound n 10 ltac:(lia)).
  pose proof (Z.div_pos n 10 Hn ltac:(lia)). lia.
Qed.

(** ** Loops that run into undefined behaviour *)

Section FailingLoops.
Context {S : Type}.
Implicit Types (body : Z -> S -> result S) (s : S).

Lemma for_count_fails_or_keeps (P : S -> Prop) body n i s :
  P s ->
  (forall j t, i <= j < i + Z.of_nat n -> P t -> fails_or_keeps P (body j t)) ->
  fails_or_keeps P (for_count n i body s).
Proof.
  revert i s. induction n as [|n IH]; intros i s Hs Hstep.
  - right. by exists s.
  - cbn [for_count]. destruct (Hstep i s) as [E|(t & E & Ht)]; [lia|done| |].
    + left. by rewrite E.
    + rewrite E, bind_Ok. apply IH; [done|].
      intros j u Hj. apply Hstep. lia.
Qed.

Lemma for_loop_fails_or_keeps (P : S -> Prop) body lo hi s :
  P s ->
  (forall j t, lo <= j <= hi -> P t -> fails_or_keeps P (body j t)) ->
  fails_or_keeps P (for_loop lo hi body s).
Proof.
  intros Hs Hstep. apply for_count_fails_or_keeps; [done|].
  intros j t Hj. apply Hstep. lia.
Qed.

(** When the last step fails on every state with [P], the loop fails. *)
Lemma for_count_fails (P : S -> Prop) body n i s :
  P s ->
  (forall j t, i <= j < i + Z.of_nat n -> P t -> fails_or_keeps P (body j t)) ->
  (forall t, P t -> body (i + Z.of_nat n) t = Undef) ->
  for_count (Datatypes.S n) i body s = Undef.
Proof.
  revert i s. induction n as [|n IH]; intros i s Hs Hstep Hlast.
  - cbn [for_count]. replace i with (i + Z.of_nat 0) at 1 by lia.
    by rewrite Hlast.
  - cbn [for_count]. destruct (Hstep i s) as [E|(t & E & Ht)]; [lia|done| |].
    + by rewrite E.
    + rewrite E, bind_Ok. apply (IH (i + 1) t); [done| |].
      * intros j u Hj. apply Hstep. lia.
      * intros u Hu.
        replace (i + 1 + Z.of_nat n) with (i + Z.of_nat (Datatypes.S n)) by lia.
        by apply Hlast.
Qed.

Lemma for_loop_fails (P : S -> Prop) body lo hi s :
  lo <= hi -> P s ->
  (forall j t, lo <= j < hi -> P t -> fails_or_keeps P (body j t)) ->
  (forall t, P t -> body hi t = Undef) ->
  for_loop lo hi body s = Undef.
Proof.
  intros Hle Hs Hstep Hlast. unfold for_loop.
  replace (Z.to_nat (hi - lo + 1)) with (Datatypes.S (Z.to_nat (hi - lo))) by lia.
  apply (for_count_fails P); [done| |].
  - intros j t Hj. apply Hstep. lia.
  - intros t Ht. replace (lo + Z.of_nat (Z.to_nat (hi - lo))) with hi by lia.
    by apply Hlast.
Qed.

End FailingLoops.

Lemma store_Undef (b : buffer) i v :
  Z.of_nat (length b) <= i -> store b i v = Undef.
Proof.
  intros Hi. unfold store, in_bounds.
  destruct (Z.ltb_spec i (Z.of_nat (length b))); [lia|]. by rewrite andb_false_r.
Qed.

Lemma store_cases (b : buffer) i v :
  store b i v = Undef \/ exists b', store b i v = Ok b' /\ length b' = length b.
Proof.
  unfold store. destruct (in_bounds b i); [right|by left].
  eexists. split; [done|]. by rewrite length_insert.
Qed.

Lemma read_block_Undef (b : buffer) start count :
  Z.of_nat (length b) < start + count -> read_block b start count = Undef.
Proof.
  intros H. unfold read_block.
  destruct (Z.leb_spec (start + count) (Z.of_nat (length b))); [lia|].
  by rewrite andb_false_r.
Qed.

(** ** [domain_init] outside its blocks *)

(** A cell of [domain_init] fails or keeps [N] and the size of [temp[0]]. *)
Lemma domain_init_cell_fails_or_keeps sin ox oy y x (n : Z) (len : nat) st :
  N st = n /\ length (temp0 st) = len ->
  fails_or_keeps (fun t => N t = n /\ length (temp0 t) = len)
    (domain_init_cell sin ox oy y x st).
Proof.
  intros [HN Hlen].
  unfold domain_init_cell, set_T, set_T_next, set_THERMAL_DIFFUSIVITY.
  destruct (store_cases (temp0 st) (index st x y) (initial_temperature sin ox oy x y))
    as [E|(b0 & E & L0)]; rewrite E; [by left|]. rewrite !bind_Ok.
  match goal with |- context [store ?b ?i ?v] =>
    destruct (store_cases b i v) as [E1|(b1 & E1 & L1)]; rewrite E1; [by left|] end.
  rewrite !bind_Ok.
  match goal with |- context [store ?b ?i ?v] =>
    destruct (store_cases b i v) as [E2|(b2 & E2 & L2)]; rewrite E2; [by left|] end.
  rewrite !bind_Ok. right. eexists. split; [done|]. cbn. split; [done|congruence].
Qed.

(** [domain_init] leaves its blocks when the last cell it addresses lies
    outside them. *)
Lemma domain_init_fails sin junk0 junk1 junk2 (st : state) :
  let local_col := Z.quot (M st) (dims0 st) in
  let local_row := Z.quot (N st) (dims1 st) in
  dims0 st <> 0 -> dims1 st <> 0 ->
  1 <= local_col -> 1 <= local_row ->
  (local_col + 2) * (local_row + 2) <= index st local_row local_col ->
  domain_init sin junk0 junk1 junk2 st = Undef.
Proof.
  intros local_col local_row Hd0 Hd1 Hc Hr Hover.
  unfold domain_init. rewrite !int_div_Ok by done. rewrite !bind_Ok.
  fold local_col local_row.
  set (cells := (local_col + 2) * (local_row + 2)) in *.
  set (P := fun t : state => N t = N st /\ length (temp0 t) = Z.to_nat cells).
  apply (for_loop_fails P).
  - done.
  - split; [done|]. cbn. apply length_malloc.
  - intros y t Hy Ht. apply for_loop_fails_or_keeps; [done|].
    intros x u Hx Hu. by apply domain_init_cell_fails_or_keeps.
  - intros t Ht. apply (for_loop_fails P); [done|done| |].
    + intros x u Hx Hu. by apply domain_init_cell_fails_or_keeps.
    + intros u [HN Hlen]. unfold domain_init_cell, set_T.
      rewrite store_Undef; [done|].
      unfold index in *. rewrite HN, Hlen. lia.
Qed.

(** ** [domain_save] on a square grid and on a short block *)

Lemma bind_singleton_fmap {A B : Type} (f : A -> B) (l : list A) :
  (x ← l; [f x]) = f <$> l.
Proof.
  induction l as [|a l IH]; [done|]. rewrite bind_cons, fmap_cons, IH. done.
Qed.

Lemma saved_row_square (st : state) (iter : Z) :
  M st = N st -> 0 <= N st -> 1 <= iter <= N st ->
  (N st + 2) * (N st + 2) <= Z.of_nat (length (temp0 st)) ->
  saved_row st iter = (x ← seqZ 1 (N st); [get (temp0 st) (index st x iter)]).
Proof.
  intros HM HN Hi Hlen. rewrite bind_singleton_fmap. unfold saved_row. rewrite HM.
  apply list_eq. intros i. rewrite list_lookup_fmap.
  destruct (decide (Z.of_nat i < N st)) as [Hlt|Hge].
  - rewrite lookup_take_lt by lia. rewrite lookup_drop, lookup_seqZ_lt by lia. cbn.
    unfold get, index.
    replace (Z.to_nat (iter * (N st + 2) + (1 + Z.of_nat i)))
      with (Z.to_nat ((N st + 2) * iter + 1) + i)%nat by nia.
    destruct (lookup_lt_is_Some_2 (temp0 st) (Z.to_nat ((N st + 2) * iter + 1) + i))
      as [v Hv]; [nia|].
    by rewrite Hv.
  - rewrite lookup_take_ge by lia. rewrite lookup_seqZ_ge by lia. done.
Qed.

Lemma saved_rows_square (st : state) :
  M st = N st -> 0 <= N st ->
  (N st + 2) * (N st + 2) <= Z.of_nat (length (temp0 st)) ->
  saved_rows st (N st) = interior st.
Proof.
  intros HM HN Hlen. unfold saved_rows, interior.
  apply Forall_bind_ext, Forall_forall. intros iter Hiter.
  apply elem_of_seqZ in Hiter. apply saved_row_square; [done|done|lia|done].
Qed.

Lemma domain_save_row_fails_or_keeps name iter (st0 st : state) :
  (temp0 st, M st, N st) = (temp0 st0, M st0, N st0) ->
  fails_or_keeps (fun t => (temp0 t, M t, N t) = (temp0 st0, M st0, N st0))
    (domain_save_row name iter st).
Proof.
  intros H. unfold domain_save_row.
  destruct (read_block _ _ _) as [data| | |] eqn:E.
  - right. eexists. split; [done|]. exact H.
  - unfold read_block in E. by destruct (_ && _).
  - by left.
  - unfold read_block in E. by destruct (_ && _).
Qed.

(** ** One process *)

(** The state of the only process of a run when it enters [domain_init]. *)
Lemma startup_single_process (o : OPTIONS) fs openable :
  startup (Some o) (start_state 0 1 fs openable)
  = Ok (mkState 0 1 1 1 0 0 (opt_M o) (opt_N o) (opt_max_iteration o)
          (opt_snapshot_frequency o) [] [] [] 0%float [] fs openable).
Proof. reflexivity. Qed.

(** ... and when it leaves it. *)
Lemma initialise_single_process sin junk0 junk1 junk2 (o : OPTIONS) fs openable :
  exists st,
    initialise sin junk0 junk1 junk2 (Some o) (start_state 0 1 fs openable)
      = Ok st /\
    (rank st, size st, dims0 st, dims1 st) = (0, 1, 1, 1) /\
    (M st, N st, max_iteration st, snapshot_frequency st)
      = (opt_M o, opt_N o, opt_max_iteration o, opt_snapshot_frequency o) /\
    length (temp0 st) = Z.to_nat ((opt_M o + 2) * (opt_N o + 2)) /\
    length (temp1 st) = Z.to_nat ((opt_M o + 2) * (opt_N o + 2)) /\
    length (thermal_diffusivity st) = Z.to_nat ((opt_M o + 2) * (opt_N o + 2)) /\
    stdio st = [PrintLocalSize 0 (opt_M o) (opt_N o); PrintOffset 0 0 0] /\
    (files st, can_open st) = (fs, openable) /\
    (forall x y, 1 <= x <= opt_N o -> 1 <= y <= opt_M o ->
       temp0 st !! Z.to_nat (index st x y)
       = Some (initial_temperature sin 0 0 x y)).
Proof.
  unfold initialise. rewrite startup_single_process, bind_Ok.
  set (st0 := mkState 0 1 1 1 0 0 (opt_M o) (opt_N o) (opt_max_iteration o)
                (opt_snapshot_frequency o) [] [] [] 0%float [] fs openable).
  destruct (domain_init_spec sin junk0 junk1 junk2 st0)
    as (b0 & b1 & b2 & Hrun & (L0 & L1 & L2) & Hin & _).
  - done.
  - done.
  - cbn. rewrite Z.quot_1_r. lia.
  - cbn. rewrite !Z.quot_1_r. nia.
  - cbn [M N dims0 dims1 coord0 coord1 st0] in L0, L1, L2, Hin.
    rewrite !Z.quot_1_r, ?Z.mul_0_r in L0, L1, L2, Hin.
    eexists. split; [exact Hrun|].
    cbn -[initial_temperature index]. rewrite !Z.quot_1_r, !Z.mul_0_r.
    repeat (split; [done|]).
    intros x y Hx Hy. destruct (Hin x y Hx Hy) as (E0 & _).
    by rewrite !Z.mul_0_r in E0.
Qed.

Lemma iterate_trace (st : state) :
  snapshot_frequency st <> 0 ->
  exists st',
    iterate st = Ok st' /\
    stdio st' = stdio st ++ progress_lines st (Z.max 0 (max_iteration st + 1)) /\
    files st' = files st.
Proof.
  intros Hf. unfold iterate.
  destruct (for_loop_inv
    (fun j t => stdio t = stdio st ++ progress_lines st j
                /\ files t = files st
                /\ (rank t, max_iteration t, snapshot_frequency t)
                   = (rank st, max_iteration st, snapshot_frequency st))
    iteration_body 0 (max_iteration st) st) as (st' & Hr & Hout & Hfiles & _).
  - split; [|done]. unfold progress_lines.
    destruct (rank st =? 0); cbn; by rewrite app_nil_r.
  - intros j t Hj (Hout & Hfiles & [= Hrank Hmax Hfreq]).
    unfold iteration_body. rewrite int_rem_Ok by congruence. rewrite bind_Ok.
    eexists. split; [reflexivity|].
    rewrite progress_lines_succ by lia. rewrite Hfreq, Hrank, Hmax.
    destruct ((Z.rem j (snapshot_frequency st) =? 0) && (rank st =? 0)); cbn;
      rewrite Hout, ?app_nil_r, <- ?app_assoc;
      (split; [done|split; [done|congruence]]).
  - exists st'. split; [done|]. split; [exact Hout|exact Hfiles].
Qed.

Lemma iter_exchange_even (k : nat) (p : buffer * buffer) :
  Nat.iter (2 * k) exchange p = p.
Proof.
  induction k as [|k IH]; [done|].
  replace (2 * Datatypes.S k)%nat with (Datatypes.S (Datatypes.S (2 * k))) by lia.
  rewrite !Nat.iter_succ, IH. by destruct p.
Qed.

(** * The claims *)

(** ** The stencil update (C1) *)

(** C1.  Four processes on a 4 x 4 grid ([dims = {2, 2}]), rank 0, right
    after [domain_init]: the subgrid has 2 rows of 2 interior cells, whichever
    entry of [dims] divides which extent.  [time_step] runs its loops to
    [M/size = 1] and [N/size = 1]: it stores the stencil value in the cell
    (1, 1) and leaves the interior cells (2, 1), (1, 2) and (2, 2) of
    [temp[1]] as [domain_init] set them, so not every interior cell receives
    its update. *)
Theorem time_step_misses_interior_cells
    (sin : real_t -> real_t) (junk0 junk1 junk2 : nat -> real_t) :
  exists st st',
    initialise sin junk0 junk1 junk2 (Some (mkOptions 4 4 0 1))
      (start_state 0 4 ∅ all_files) = Ok st /\
    (dims0 st, dims1 st) = (2, 2) /\
    (Z.quot (M st) (dims1 st), Z.quot (N st) (dims0 st)) = (2, 2) /\
    (Z.quot (M st) (dims0 st), Z.quot (N st) (dims1 st)) = (2, 2) /\
    time_step st = Ok st' /\
    T_next st' 1 1 = Ok (stencil_at st 1 1) /\
    T_next st' 2 1 = Ok (initial_temperature sin 0 0 2 1) /\
    T_next st' 1 2 = Ok (initial_temperature sin 0 0 1 2) /\
    T_next st' 2 2 = Ok (initial_temperature sin 0 0 2 2) /\
    (T_next st' 2 1, T_next st' 1 2, T_next st' 2 2)
    = (T_next st 2 1, T_next st 1 2, T_next st 2 2).
Proof. do 2 eexists. evaluate. Qed.

(** ** The driver loop (C2, C6) *)

(** C2.  The iteration loop as written performs [max_iteration + 1] steps
    (none when [max_iteration] is negative), and each step only exchanges
    the two buffer pointers: after the loop the two blocks are the two
    blocks it started with, cell for cell, the diffusivity block and the
    files are untouched.  No border exchange, boundary condition, stencil
    update or checkpoint takes place in a step. *)
Theorem iterate_only_swaps (st : state) :
  snapshot_frequency st <> 0 ->
  exists st',
    iterate st = Ok st' /\
    (temp0 st', temp1 st') =
      Nat.iter (Z.to_nat (max_iteration st + 1)) exchange (temp0 st, temp1 st) /\
    thermal_diffusivity st' = thermal_diffusivity st /\
    files st' = files st.
Proof. apply iterate_spec. Qed.

Lemma iterate_only_swaps_witness :
  exists st',
    iterate example_state = Ok st' /\
    (temp0 st', temp1 st') =
      Nat.iter (Z.to_nat (max_iteration example_state + 1)) exchange
        (temp0 example_state, temp1 example_state) /\
    thermal_diffusivity st' = thermal_diffusivity example_state /\
    files st' = files example_state.
Proof. apply iterate_only_swaps. vm_compute. discriminate. Defined.

(** C6.  Whatever the arguments, a run of the program up to the end of the
    iteration loop leaves the files as they were: no checkpoint is produced
    at any iteration, in particular none at iteration 0. *)
Theorem run_writes_no_checkpoint
    (sin : real_t -> real_t) (junk0 junk1 junk2 : nat -> real_t)
    (parsed : option OPTIONS) (st st' : state) :
  run sin junk0 junk1 junk2 parsed st = Ok st' -> files st' = files st.
Proof. apply run_files. Qed.

Lemma run_writes_no_checkpoint_witness :
  files (state_of (run sample_sin zeroed zeroed zeroed (Some square8)
                     (start_state 0 1 ∅ all_files)))
  = files (start_state 0 1 ∅ all_files).
Proof.
  apply (run_writes_no_checkpoint sample_sin zeroed zeroed zeroed (Some square8)).
  vm_compute. reflexivity.
Defined.

(** ** The halo exchange (C3) *)

(** C3.  Two processes on the 8 x 8 grid, side by side along the first
    topology axis, after the whole run of one iteration: the halo cell (9, 1)
    of rank 0 and the halo cell (0, 1) of rank 1 still hold what [malloc]
    returned, while the facing interior cells (1, 1) of rank 1 and (8, 1) of
    rank 0 hold initial temperatures.  No exchange has taken place. *)
Theorem halo_keeps_allocation_values
    (sin : real_t -> real_t) (junk : Z -> nat -> real_t) :
  exists st0 st1,
    run sin (junk 0) (junk 1) (junk 2) (Some square8)
      (start_state 0 2 ∅ all_files) = Ok st0 /\
    run sin (junk 3) (junk 4) (junk 5) (Some square8)
      (start_state 1 2 ∅ all_files) = Ok st1 /\
    (coord0 st0, coord1 st0) = (0, 0) /\
    (coord0 st1, coord1 st1) = (1, 0) /\
    T st0 9 1 = Ok (junk 1 19%nat) /\
    T st1 1 1 = Ok (initial_temperature sin 8 0 1 1) /\
    T st1 0 1 = Ok (junk 4 10%nat) /\
    T st0 8 1 = Ok (initial_temperature sin 0 0 8 1).
Proof. do 2 eexists. evaluate. Qed.

(** ** The boundary condition (C4) *)

(** C4.  Nine processes on a 6 x 6 grid ([dims = {3, 3}]), the current block
    holding the [(M/dims[1] + 2) * (N + 2) = 32] cells the function
    addresses.  Rank 4 sits at [coord = (1, 1)], on no global edge, and
    [boundary_condition] still overwrites its halo rows 0 and 3 with the rows
    2 and 1.  Rank 1 sits at [coord = (0, 1)], on the edge of the first axis,
    and its halo column 0 is left as it was, because the test is
    [rank == 0].  On the blocks [domain_init] allocates for two processes
    the function reads outside the block. *)
Theorem boundary_condition_ignores_topology
    (sin : real_t -> real_t) (junk junk0 junk1 junk2 : nat -> real_t) :
  exists inner inner' edge edge' pair,
    startup (Some (mkOptions 6 6 0 1)) (start_state 4 9 ∅ all_files) = Ok inner /\
    (dims0 inner, dims1 inner, coord0 inner, coord1 inner) = (3, 3, 1, 1) /\
    boundary_condition (set_temp0 inner (malloc junk 32)) = Ok inner' /\
    T inner' 1 0 = Ok (junk 17%nat) /\
    T inner' 1 3 = Ok (junk 9%nat) /\
    startup (Some (mkOptions 6 6 0 1)) (start_state 1 9 ∅ all_files) = Ok edge /\
    (dims0 edge, dims1 edge, coord0 edge, coord1 edge) = (3, 3, 0, 1) /\
    boundary_condition (set_temp0 edge (malloc junk 32)) = Ok edge' /\
    T edge' 0 1 = Ok (junk 8%nat) /\
    initialise sin junk0 junk1 junk2 (Some square8)
      (start_state 0 2 ∅ all_files) = Ok pair /\
    boundary_condition pair = Undef.
Proof. do 5 eexists. evaluate. Qed.

(** ** The local extents (C5) *)

(** C5.  Two processes on a grid of [M = 8] rows and [N = 4] columns
    ([dims = {2, 1}]): [domain_init] prints and uses [local_col = M/dims[0]
    = 4] and [local_row = N/dims[1] = 4] and allocates [6 * 6] cells, where
    [M/dims[1]] is 8 and [N/dims[0]] is 2. *)
Theorem domain_init_extents_swapped
    (sin : real_t -> real_t) (junk0 junk1 junk2 : nat -> real_t) :
  exists st,
    initialise sin junk0 junk1 junk2 (Some (mkOptions 8 4 0 1))
      (start_state 0 2 ∅ all_files) = Ok st /\
    (M st, N st, dims0 st, dims1 st) = (8, 4, 2, 1) /\
    stdio st = [PrintLocalSize 0 4 4; PrintOffset 0 0 0] /\
    length (temp0 st) = 36%nat /\
    Z.quot (M st) (dims1 st) = 8 /\
    Z.quot (N st) (dims0 st) = 2.
Proof. eexists. evaluate. Qed.

(** ** The checkpoint file (C7, C8) *)

(** C7.  One process on a grid of [M = 8] rows and [N = 4] columns:
    [domain_save] writes [N] rows of [N] values, 128 bytes where the
    [N * M] values of the field take 256, and reads them at the row stride
    [M + 2]: the first value of the file is the halo cell 11 that
    [domain_init] never wrote, the third is the interior cell (1, 2). *)
Theorem domain_save_writes_N_rows_of_N
    (sin : real_t -> real_t) (junk0 junk1 junk2 : nat -> real_t) :
  exists st st' f,
    initialise sin junk0 junk1 junk2 (Some (mkOptions 8 4 0 1))
      (start_state 0 1 ∅ all_files) = Ok st /\
    (M st, N st) = (8, 4) /\
    domain_save 0 st = Ok st' /\
    files st' !! "data/00000.bin"%string = Some f /\
    file_bytes f = 128 /\
    sizeof_real_t * (N st * M st) = 256 /\
    f !! 0%nat = Some (junk0 11%nat) /\
    f !! 2%nat = Some (initial_temperature sin 0 0 1 2).
Proof. do 3 eexists. evaluate. Qed.

(** C8, as amended.  For [M = N = 8] on one process with
    [snapshot_frequency = 1], [domain_save ( 0 )] applied to the field
    [domain_init] produced writes [data/00000.bin] with 64 values in
    row-major order, the value in row [r], column [c] (both from 0) being
    [30 + 30 * sin(((c + 1) + (r + 1)) / 20.0)]: the initial condition at
    the one-based coordinates of the interior cells. *)
Theorem initial_checkpoint_one_based
    (sin : real_t -> real_t) (junk0 junk1 junk2 : nat -> real_t) :
  exists st st',
    initialise sin junk0 junk1 junk2 (Some square8)
      (start_state 0 1 ∅ all_files) = Ok st /\
    domain_save 0 st = Ok st' /\
    files st' !! "data/00000.bin"%string = Some (initial_field sin 1 8 8).
Proof. do 2 eexists. evaluate. Qed.

(** C8, as stated, fails twice: the run of the scenario leaves no file
    [data/00000.bin] at all, and the file [domain_save] writes from the
    initial field does not hold the zero-based values. *)
Lemma no_zero_based_checkpoint :
  ~ (forall (sin : real_t -> real_t) (junk0 junk1 junk2 : nat -> real_t),
       exists st,
         run sin junk0 junk1 junk2 (Some square8) (start_state 0 1 ∅ all_files)
           = Ok st /\
         files st !! "data/00000.bin"%string = Some (initial_field sin 0 8 8))
  /\
  ~ (forall (sin : real_t -> real_t) (junk0 junk1 junk2 : nat -> real_t),
       exists st st',
         initialise sin junk0 junk1 junk2 (Some square8)
           (start_state 0 1 ∅ all_files) = Ok st /\
         domain_save 0 st = Ok st' /\
         files st' !! "data/00000.bin"%string = Some (initial_field sin 0 8 8)).
Proof.
  split.
  - intros H. destruct (H sample_sin zeroed zeroed zeroed) as (st & Hrun & Hfile).
    rewrite (run_files _ _ _ _ _ _ _ Hrun) in Hfile. discriminate.
  - intros H.
    destruct (H sample_sin zeroed zeroed zeroed) as (st & st' & Hi & Hs & Hf).
    assert (exists t t',
              initialise sample_sin zeroed zeroed zeroed (Some square8)
                (start_state 0 1 ∅ all_files) = Ok t /\
              domain_save 0 t = Ok t' /\
              files t' !! "data/00000.bin"%string
                = Some (initial_field sample_sin 1 8 8))
      as (t & t' & Hi' & Hs' & Hf') by (do 2 eexists; evaluate).
    rewrite Hi in Hi'. injection Hi' as <-.
    rewrite Hs in Hs'. injection Hs' as <-.
    rewrite Hf in Hf'. apply (f_equal first_below_31) in Hf'.
    vm_compute in Hf'. discriminate.
Qed.

(** ** Initialisation (C10) *)

(** C10.  Four processes on the 8 x 8 grid ([dims = {2, 2}]), rank 0:
    [domain_init] allocates [(4 + 2) * (4 + 2) = 36] cells per block and
    addresses the cell (1, 4) at [4 * (N + 2) + 1 = 41]: it writes outside
    the blocks before the interior is initialised. *)
Theorem domain_init_overruns_its_blocks
    (sin : real_t -> real_t) (junk0 junk1 junk2 : nat -> real_t) :
  exists st,
    startup (Some square8) (start_state 0 4 ∅ all_files) = Ok st /\
    (dims0 st, dims1 st) = (2, 2) /\
    (Z.quot (M st) (dims0 st) + 2) * (Z.quot (N st) (dims1 st) + 2) = 36 /\
    index st 1 4 = 41 /\
    domain_init sin junk0 junk1 junk2 st = Undef.
Proof. eexists. evaluate. Qed.

(** * What holds of the functions on one process *)

(** X1.  With one process, [time_step] stores in [T_next(x, y)], for every
    interior cell, the value [c + K * dt * ((l - 2 * c + r) + (b - 2 * c + t))]
    computed from [temp[0]] and the diffusivity, and changes no other cell
    of [temp[1]] and no other block. *)
Theorem time_step_single_process (st : state) :
  size st = 1 -> 0 <= N st ->
  (M st + 2) * (N st + 2) <= Z.of_nat (length (temp0 st)) ->
  (M st + 2) * (N st + 2) <= Z.of_nat (length (temp1 st)) ->
  (M st + 2) * (N st + 2) <= Z.of_nat (length (thermal_diffusivity st)) ->
  exists st',
    time_step st = Ok st' /\
    (forall x y, 1 <= x <= N st -> 1 <= y <= M st ->
       T_next st' x y = Ok (stencil_at st x y)) /\
    (forall i : nat,
       (forall x y, 1 <= x <= N st -> 1 <= y <= M st ->
          i <> Z.to_nat (index st x y)) ->
       temp1 st' !! i = temp1 st !! i) /\
    temp0 st' = temp0 st /\
    thermal_diffusivity st' = thermal_diffusivity st.
Proof.
  intros Hsize HN H0 H1 H2.
  destruct (time_step_spec st) as (b & Hrun & Hlen & Hin & Hout);
    rewrite ?Hsize, ?Z.quot_1_r; try lia.
  rewrite Hsize, !Z.quot_1_r in Hin, Hout.
  exists (set_temp1 st b). split; [done|]. split; [|split; [done|done]].
  intros x y Hx Hy. unfold T_next. cbn [temp1 set_temp1].
  change (index (set_temp1 st b)) with (index st).
  apply load_lookup; [apply index_nonneg; lia|]. by apply Hin.
Qed.

Lemma time_step_single_process_witness :
  exists st',
    time_step example_state = Ok st' /\
    T_next st' 1 1 = Ok (stencil_at example_state 1 1).
Proof.
  destruct (time_step_single_process example_state) as (st' & Hrun & Hin & _);
    [closed_fact..|].
  exists st'. split; [exact Hrun|]. apply Hin; closed_fact.
Defined.

(** X2.  With one process row ([dims[1] = 1], in particular with one process),
    extents and coordinates in range and the three allocations successful,
    [domain_init] writes the same initial temperature into [T(x, y)] and
    [T_next(x, y)] for every interior cell and leaves every other cell of the
    three blocks as [malloc] returned it. *)
Theorem domain_init_fills_interior
    (sin : real_t -> real_t) (junk0 junk1 junk2 : nat -> real_t) (st : state) :
  1 <= dims0 st -> dims1 st = 1 ->
  in_range (M st) -> in_range (N st) ->
  in_range (coord0 st) -> in_range (coord1 st) ->
  exists st',
    domain_init sin junk0 junk1 junk2 st = Ok st' /\
    (forall x y, 1 <= x <= N st -> 1 <= y <= Z.quot (M st) (dims0 st) ->
       T st' x y
       = Ok (initial_temperature sin (N st * coord0 st)
               (Z.quot (M st) (dims0 st) * coord1 st) x y) /\
       T_next st' x y = T st' x y) /\
    (forall i : nat,
       (i < Z.to_nat ((Z.quot (M st) (dims0 st) + 2) * (N st + 2)))%nat ->
       (forall x y, 1 <= x <= N st -> 1 <= y <= Z.quot (M st) (dims0 st) ->
          i <> Z.to_nat (index st x y)) ->
       temp0 st' !! i = Some (junk0 i) /\
       temp1 st' !! i = Some (junk1 i) /\
       thermal_diffusivity st' !! i = Some (junk2 i)).
Proof.
  intros Hd0 Hd1 _ [HN _] _ _.
  destruct (domain_init_spec sin junk0 junk1 junk2 st)
    as (b0 & b1 & b2 & Hrun & (L0 & L1 & L2) & Hin & Hout);
    rewrite ?Hd1, ?Z.quot_1_r; try lia; try nia.
  rewrite Hd1, !Z.quot_1_r in Hin, Hout.
  eexists. split; [exact Hrun|]. split.
  - intros x y Hx Hy. destruct (Hin x y Hx Hy) as (E0 & E1 & _).
    unfold T, T_next. cbn [temp0 temp1 with_buffers set_temp0 set_temp1
                           set_thermal_diffusivity].
    change (index (with_buffers _ b0 b1 b2)) with (index st).
    assert (0 <= index st x y) as Hpos by (apply index_nonneg; lia).
    rewrite (load_lookup b0 _ _ Hpos E0).
    by rewrite (load_lookup b1 _ _ Hpos E1).
  - intros i Hi Hne. destruct (Hout i Hne) as (E0 & E1 & E2).
    cbn [temp0 temp1 thermal_diffusivity with_buffers set_temp0 set_temp1
         set_thermal_diffusivity].
    rewrite E0, E1, E2, !lookup_malloc by done. done.
Qed.

Lemma domain_init_fills_interior_witness :
  exists st',
    domain_init sample_sin zeroed zeroed zeroed
      (state_of (startup (Some square8) (start_state 0 1 ∅ all_files))) = Ok st' /\
    T st' 1 1 = Ok (initial_temperature sample_sin 0 0 1 1) /\
    T_next st' 1 1 = T st' 1 1.
Proof.
  destruct (domain_init_fills_interior sample_sin zeroed zeroed zeroed
              (state_of (startup (Some square8) (start_state 0 1 ∅ all_files))))
    as (st' & Hrun & Hin & _);
    [closed_fact..|].
  exists st'. split; [exact Hrun|].
  apply (Hin 1 1); closed_fact.
Defined.

(** X3.  With one process, [boundary_condition] makes every halo cell of the four
    edges equal to the interior cell two steps in, and leaves the interior
    and the other blocks as they were. *)
Theorem boundary_condition_single_process (st : state) :
  rank st = 0 -> size st = 1 -> dims0 st = 1 -> dims1 st = 1 ->
  1 <= M st -> 1 <= N st ->
  (M st + 2) * (N st + 2) <= Z.of_nat (length (temp0 st)) ->
  exists st',
    boundary_condition st = Ok st' /\
    (forall x, 1 <= x <= N st ->
       exists top bottom,
         T st' x 0 = Ok top /\ T st' x 2 = Ok top /\
         T st' x (M st + 1) = Ok bottom /\ T st' x (M st - 1) = Ok bottom) /\
    (forall y, 1 <= y <= M st ->
       exists left right,
         T st' 0 y = Ok left /\ T st' 2 y = Ok left /\
         T st' (N st + 1) y = Ok right /\ T st' (N st - 1) y = Ok right) /\
    (forall x y, 1 <= x <= N st -> 1 <= y <= M st -> T st' x y = T st x y) /\
    temp1 st' = temp1 st /\
    thermal_diffusivity st' = thermal_diffusivity st.
Proof.
  intros Hrank Hsize Hd0 Hd1 HM HN Hlen.
  destruct (boundary_condition_spec st (M st) (N st) (temp0 st))
    as (b' & Hrun & Hl & Hrow & Hleft & Hright & Hframe);
    rewrite ?Hd0, ?Hd1, ?Z.quot_1_r; try lia.
  rewrite set_temp0_id in Hrun.
  assert (forall x y, 0 <= x <= N st + 1 -> 0 <= y <= M st + 1 ->
            T (set_temp0 st b') x y = Ok (get b' (index st x y))) as Hload.
  { intros x y Hx Hy. unfold T. cbn [temp0 set_temp0].
    change (index (set_temp0 st b')) with (index st).
    apply load_get. rewrite Hl. unfold index. nia. }
  exists (set_temp0 st b'). split; [done|]. split; [|split; [|split; [|done]]].
  - intros x Hx. destruct (Hrow x Hx) as [E0 E1].
    exists (get b' (index st x 0)), (get b' (index st x (M st + 1))).
    rewrite !Hload by lia. by rewrite E0, E1.
  - intros y Hy.
    exists (get b' (index st 0 y)), (get b' (index st (N st + 1) y)).
    rewrite !Hload by lia.
    by rewrite (Hleft Hrank y Hy), (Hright ltac:(lia) y Hy).
  - intros x y Hx Hy. rewrite Hload by lia.
    unfold T. rewrite load_get by (unfold index; nia). f_equal.
    apply Hframe.
    + apply index_nonneg; lia.
    + intros x' Hx'. split; index_neq (index_inj st).
    + intros _ y' Hy'. index_neq (index_inj st).
    + intros _ y' Hy'. index_neq (index_inj st).
Qed.

Lemma boundary_condition_single_process_witness :
  exists st' top,
    boundary_condition example_state = Ok st' /\
    T st' 1 0 = Ok top /\ T st' 1 2 = Ok top.
Proof.
  destruct (boundary_condition_single_process example_state)
    as (st' & Hrun & Hrow & _);
    [closed_fact..|].
  destruct (Hrow 1) as (top & bottom & E0 & E2 & _);
    [closed_fact|].
  exists st', top. split; [exact Hrun|]. split; [exact E0|exact E2].
Defined.

(** X4.  Called with an iteration number that is not negative (the quotient
    [iteration / snapshot_frequency] does not overflow), [domain_save]
    creates [data/<index>.bin] anew and writes to it, without a header, [N]
    times the [N] cells of [temp[0]] that start at [(M + 2) * iter + 1], for
    [iter = 1, ..., N]: [8 * N * N] bytes.  The blocks are not changed. *)
Theorem domain_save_writes_N_squared (iteration : Z) (st : state) :
  0 <= iteration ->
  snapshot_frequency st <> 0 ->
  can_open st (snapshot_filename (Z.quot iteration (snapshot_frequency st)))
    = true ->
  0 <= N st -> 0 <= M st + 2 ->
  (M st + 2) * N st + 1 + N st <= Z.of_nat (length (temp0 st)) ->
  exists st',
    domain_save iteration st = Ok st' /\
    files st' !! snapshot_filename (Z.quot iteration (snapshot_frequency st))
      = Some (saved_rows st (N st)) /\
    file_bytes (saved_rows st (N st)) = 8 * (N st * N st) /\
    (temp0 st', temp1 st', thermal_diffusivity st')
      = (temp0 st, temp1 st, thermal_diffusivity st).
Proof.
  intros _ Hf Hopen HN HM Hlen.
  eexists. split; [by apply domain_save_spec|].
  cbn [files temp0 temp1 thermal_diffusivity set_files].
  split; [apply lookup_insert_eq|]. split; [|done].
  unfold file_bytes, sizeof_real_t. rewrite length_saved_rows by lia. nia.
Qed.

Lemma domain_save_writes_N_squared_witness :
  exists st',
    domain_save 0 example_state = Ok st' /\
    files st' !! snapshot_filename (Z.quot 0 (snapshot_frequency example_state))
      = Some (saved_rows example_state (N example_state)) /\
    file_bytes (saved_rows example_state (N example_state))
      = 8 * (N example_state * N example_state) /\
    (temp0 st', temp1 st', thermal_diffusivity st')
      = (temp0 example_state, temp1 example_state,
         thermal_diffusivity example_state).
Proof.
  apply domain_save_writes_N_squared;
    closed_fact.
Defined.

(** X5.  For a snapshot index below 100000 the file name is [data/], the index
    written with exactly five decimal digits, and [.bin]. *)
Theorem snapshot_filename_five_digits (index : Z) :
  0 <= index < 100000 ->
  snapshot_filename index = ("data/" ++ format_5ld index ++ ".bin")%string /\
  String.length (format_5ld index) = 5%nat /\
  digits_value 0 (format_5ld index) = Some index.
Proof.
  intros Hi. split; [reflexivity|].
  destruct (decimal_split index) as (q1 & e & E1 & He & Hq1); [lia|].
  destruct (decimal_split q1) as (q2 & d & E2 & Hd & Hq2); [lia|].
  destruct (decimal_split q2) as (q3 & c & E3 & Hc & Hq3); [lia|].
  destruct (decimal_split q3) as (a & b & E4 & Hb & Ha); [lia|].
  pose proof (forallb5_spec five_digits_of decimal_digits a b c d e
                five_digits_checked) as H.
  replace (10000 * a + 1000 * b + 100 * c + 10 * d + e) with index in H by lia.
  specialize (H ltac:(apply In_decimal_digits; lia) ltac:(apply In_decimal_digits; lia)
                ltac:(apply In_decimal_digits; lia) ltac:(apply In_decimal_digits; lia)
                ltac:(apply In_decimal_digits; lia)).
  unfold five_digits_of in H. apply andb_prop in H as [H1 H2].
  split; [by apply Nat.eqb_eq|].
  destruct (digits_value 0 (format_5ld index)) as [v|]; [|discriminate].
  f_equal. lia.
Qed.

Lemma snapshot_filename_five_digits_witness :
  snapshot_filename 42 = ("data/" ++ format_5ld 42 ++ ".bin")%string /\
  String.length (format_5ld 42) = 5%nat /\
  digits_value 0 (format_5ld 42) = Some 42.
Proof. apply snapshot_filename_five_digits. lia. Defined.

(** X6.  For [max_iteration] below [INT64_MAX] (the counter does not
    overflow), the iteration loop returns after the steps [0], ...,
    [max_iteration] and has printed, on rank 0 only, one progress line for
    each iteration with [iteration % snapshot_frequency == 0], iteration 0
    included, in order. *)
Theorem iterate_progress_lines (st : state) :
  snapshot_frequency st <> 0 -> max_iteration st < INT64_MAX ->
  exists st',
    iterate st = Ok st' /\
    stdio st' = stdio st ++ progress_lines st (Z.max 0 (max_iteration st + 1)).
Proof.
  intros Hf _. unfold iterate.
  destruct (for_loop_inv
    (fun j t => stdio t = stdio st ++ progress_lines st j
                /\ rank t = rank st /\ max_iteration t = max_iteration st
                /\ snapshot_frequency t = snapshot_frequency st)
    iteration_body 0 (max_iteration st) st) as (st' & Hr & Hout & _).
  - split; [|done]. unfold progress_lines. destruct (rank st =? 0); cbn.
    + by rewrite app_nil_r.
    + by rewrite app_nil_r.
  - intros j t Hj (Hout & Hrank & Hmax & Hfreq).
    unfold iteration_body. rewrite int_rem_Ok by congruence. rewrite bind_Ok.
    eexists. split; [reflexivity|].
    rewrite progress_lines_succ by lia. rewrite Hfreq, Hrank, Hmax.
    destruct ((Z.rem j (snapshot_frequency st) =? 0) && (rank st =? 0)); cbn.
    + rewrite Hout, <- app_assoc. done.
    + rewrite Hout, app_nil_r. done.
  - exists st'. split; [done|exact Hout].
Qed.

Lemma iterate_progress_lines_witness :
  exists st',
    iterate example_state = Ok st' /\
    stdio st' = stdio example_state
                ++ progress_lines example_state
                     (Z.max 0 (max_iteration example_state + 1)).
Proof. apply iterate_progress_lines; closed_fact. Defined.

(** * Further properties of the functions *)

(** X7.  For extents and coordinates in range, [domain_init] returns
    normally exactly when the last cell it addresses, [(local_row,
    local_col)] at the global row stride [N + 2], lies inside the blocks of
    [(local_col + 2) * (local_row + 2)] cells it allocated (or when it has
    no cell to write); otherwise it writes outside its blocks. *)
Theorem domain_init_overrun_condition
    (sin : real_t -> real_t) (junk0 junk1 junk2 : nat -> real_t) (st : state) :
  1 <= dims0 st -> 1 <= dims1 st ->
  in_range (M st) -> in_range (N st) ->
  in_range (coord0 st) -> in_range (coord1 st) ->
  let local_col := Z.quot (M st) (dims0 st) in
  let local_row := Z.quot (N st) (dims1 st) in
  let overrun :=
    1 <= local_col /\ 1 <= local_row /\
    (local_col + 2) * (local_row + 2) <= index st local_row local_col in
  (overrun -> domain_init sin junk0 junk1 junk2 st = Undef) /\
  (~ overrun -> exists st', domain_init sin junk0 junk1 junk2 st = Ok st').
Proof.
  intros Hd0 Hd1 _ [HN _] _ _ local_col local_row overrun. split.
  - intros (Hc & Hr & Hover). apply domain_init_fails; [lia|lia|done..].
  - intros Hfit.
    destruct (domain_init_spec sin junk0 junk1 junk2 st)
      as (b0 & b1 & b2 & Hrun & _).
    + lia.
    + lia.
    + apply quot_le_self; lia.
    + intros Hc Hr. unfold overrun, index in Hfit. fold local_col local_row. lia.
    + eexists. exact Hrun.
Qed.

Lemma domain_init_overrun_condition_witness :
  domain_init sample_sin zeroed zeroed zeroed
    (state_of (startup (Some square8) (start_state 0 4 ∅ all_files))) = Undef.
Proof.
  destruct (domain_init_overrun_condition sample_sin zeroed zeroed zeroed
              (state_of (startup (Some square8) (start_state 0 4 ∅ all_files))))
    as [Hover _]; [closed_fact..|].
  apply Hover. vm_compute. split; [|split]; discriminate.
Defined.

(** X8.  On a square grid ([M = N]) whose current block holds the
    [(N + 2) * (N + 2)] cells of the field, [domain_save] writes exactly
    the interior cells [T(x, y)], [1 <= x, y <= N], row by row. *)
Theorem domain_save_writes_interior (iteration : Z) (st : state) :
  0 <= iteration ->
  snapshot_frequency st <> 0 ->
  can_open st (snapshot_filename (Z.quot iteration (snapshot_frequency st)))
    = true ->
  M st = N st -> 0 <= N st ->
  (N st + 2) * (N st + 2) <= Z.of_nat (length (temp0 st)) ->
  exists st',
    domain_save iteration st = Ok st' /\
    files st' !! snapshot_filename (Z.quot iteration (snapshot_frequency st))
      = Some (interior st).
Proof.
  intros _ Hf Hopen HM HN Hlen.
  eexists. split; [apply domain_save_spec; try done; nia|].
  cbn [files set_files]. rewrite lookup_insert_eq. f_equal.
  by apply saved_rows_square.
Qed.

Lemma domain_save_writes_interior_witness :
  exists st',
    domain_save 0 example_state = Ok st' /\
    files st' !! snapshot_filename (Z.quot 0 (snapshot_frequency example_state))
      = Some (interior example_state).
Proof. apply domain_save_writes_interior; closed_fact. Defined.

(** X9.  One process on an [n x n] grid: the checkpoint of the freshly
    initialised field, [domain_save ( 0 )] on the state [domain_init]
    produced, holds [n * n] values in row-major order, the value in row [r],
    column [c] (both from 0) being [30 + 30 * sin(((c + 1) + (r + 1)) / 20.0)]. *)
Theorem initial_checkpoint_any_size
    (sin : real_t -> real_t) (junk0 junk1 junk2 : nat -> real_t)
    (n iterations frequency : Z) (fs : gmap string file)
    (openable : string -> bool) :
  in_range n -> frequency <> 0 -> openable "data/00000.bin"%string = true ->
  exists st st',
    initialise sin junk0 junk1 junk2 (Some (mkOptions n n iterations frequency))
      (start_state 0 1 fs openable) = Ok st /\
    domain_save 0 st = Ok st' /\
    files st' !! "data/00000.bin"%string = Some (initial_field sin 1 n n).
Proof.
  intros [Hn _] Hf Hopen.
  destruct (initialise_single_process sin junk0 junk1 junk2
              (mkOptions n n iterations frequency) fs openable)
    as (st & Hrun & _ & [= HM HN _ Hfreq] & L0 & _ & _ & _ & [= _ Hco] & Hin).
  cbn [opt_M opt_N] in L0, Hin.
  exists st. eexists. split; [exact Hrun|]. split.
  - apply domain_save_spec; rewrite ?Hfreq, ?HM, ?HN, ?L0, ?Hco, ?Z.quot_0_l;
      first [done|nia].
  - cbn [files set_files]. rewrite Hfreq, Z.quot_0_l by done.
    change (snapshot_filename 0) with "data/00000.bin"%string.
    rewrite lookup_insert_eq. f_equal. rewrite <- HN at 1.
    rewrite saved_rows_square; [|congruence|lia|rewrite L0, HN; nia].
    unfold interior, initial_field. rewrite HN.
    change (seqZ 1 n) with (seqZ (1 + 0) n).
    rewrite <- fmap_add_seqZ, list_fmap_bind.
    apply Forall_bind_ext, Forall_forall. intros r Hr. apply elem_of_seqZ in Hr.
    cbn [compose]. rewrite list_fmap_bind.
    apply Forall_bind_ext, Forall_forall. intros c Hc. apply elem_of_seqZ in Hc.
    cbn [compose]. f_equal.
    unfold get. rewrite (Hin (1 + c) (1 + r)) by lia. cbn [default from_option id].
    unfold initial_temperature. do 4 f_equal. apply (f_equal real_of_int). lia.
Qed.

Lemma initial_checkpoint_any_size_witness :
  exists st st',
    initialise sample_sin zeroed zeroed zeroed (Some (mkOptions 3 3 0 1))
      (start_state 0 1 ∅ all_files) = Ok st /\
    domain_save 0 st = Ok st' /\
    files st' !! "data/00000.bin"%string = Some (initial_field sample_sin 1 3 3).
Proof. apply initial_checkpoint_any_size; closed_fact. Defined.

(** X10.  When the file can be opened and the current block is shorter than
    the last row [domain_save] reads, [(M + 2) * N + 1 + N] cells,
    [domain_save] reads outside the block. *)
Theorem domain_save_overruns_short_block (iteration : Z) (st : state) :
  0 <= iteration ->
  snapshot_frequency st <> 0 ->
  can_open st (snapshot_filename (Z.quot iteration (snapshot_frequency st)))
    = true ->
  1 <= N st ->
  Z.of_nat (length (temp0 st)) < (M st + 2) * N st + 1 + N st ->
  domain_save iteration st = Undef.
Proof.
  intros _ Hf Hopen HN Hlen. unfold domain_save.
  rewrite int_div_Ok by done. rewrite bind_Ok. unfold fopen_wb. rewrite Hopen.
  cbn [N set_files].
  apply (for_loop_fails (fun t => (temp0 t, M t, N t) = (temp0 st, M st, N st))).
  - done.
  - done.
  - intros iter t _ Ht. by apply domain_save_row_fails_or_keeps.
  - intros t [= E0 EM EN]. unfold domain_save_row.
    rewrite read_block_Undef; [done|]. rewrite E0, EM, EN. lia.
Qed.

Lemma domain_save_overruns_short_block_witness :
  domain_save 0
    (state_of (initialise sample_sin zeroed zeroed zeroed (Some square8)
                 (start_state 0 2 ∅ all_files))) = Undef.
Proof. apply domain_save_overruns_short_block; closed_fact. Defined.

(** X11.  With [snapshot_frequency = 0] the first step of the iteration loop
    divides by zero in [iteration % snapshot_frequency], on every rank; the
    loop returns at once, having done nothing, only when [max_iteration] is
    negative. *)
Theorem iterate_zero_frequency (st : state) :
  snapshot_frequency st = 0 ->
  iterate st = if 0 <=? max_iteration st then Undef else Ok st.
Proof.
  intros Hf. unfold iterate, for_loop.
  destruct (Z.leb_spec 0 (max_iteration st)) as [Hm|Hm].
  - replace (Z.to_nat (max_iteration st - 0 + 1))
      with (Datatypes.S (Z.to_nat (max_iteration st))) by lia.
    cbn [for_count]. unfold iteration_body, int_rem. by rewrite Hf.
  - by replace (Z.to_nat (max_iteration st - 0 + 1)) with 0%nat by lia.
Qed.

Lemma iterate_zero_frequency_witness :
  iterate (state_of (initialise sample_sin zeroed zeroed zeroed
                       (Some (mkOptions 8 8 5 0)) (start_state 1 2 ∅ all_files)))
  = Undef.
Proof. apply iterate_zero_frequency. closed_fact. Defined.

(** X12.  After the loop the two buffer pointers are exchanged when
    [max_iteration] is even (an odd number of steps) and as they were when it
    is odd. *)
Theorem iterate_buffer_parity (st : state) :
  snapshot_frequency st <> 0 -> 0 <= max_iteration st < INT64_MAX ->
  exists st',
    iterate st = Ok st' /\
    (temp0 st', temp1 st')
    = if Z.even (max_iteration st) then (temp1 st, temp0 st)
      else (temp0 st, temp1 st).
Proof.
  intros Hf [Hm _]. destruct (iterate_spec st Hf) as (st' & Hrun & Hb & _).
  exists st'. split; [done|]. rewrite Hb.
  destruct (Z.even (max_iteration st)) eqn:E.
  - apply Z.even_spec in E as [k Hk].
    replace (Z.to_nat (max_iteration st + 1))
      with (Datatypes.S (2 * Z.to_nat k)) by lia.
    by rewrite Nat.iter_succ, iter_exchange_even.
  - rewrite <- Z.negb_odd in E. apply negb_false_iff, Z.odd_spec in E as [k Hk].
    replace (Z.to_nat (max_iteration st + 1)) with (2 * Z.to_nat (k + 1))%nat by lia.
    by rewrite iter_exchange_even.
Qed.

Lemma iterate_buffer_parity_witness :
  exists st',
    iterate example_state = Ok st' /\
    (temp0 st', temp1 st')
    = if Z.even (max_iteration example_state)
      then (temp1 example_state, temp0 example_state)
      else (temp0 example_state, temp1 example_state).
Proof.
  apply iterate_buffer_parity; [closed_fact|].
  vm_compute. split; [discriminate|reflexivity].
Defined.

(** X13.  A run on one process with arguments in range: up to the end of the
    iteration loop the process has printed its local size, its offset and
    the progress lines, has left the files as they were, and [main] then
    leaves through [exit ( EXIT_SUCCESS )]. *)
Theorem single_process_run
    (sin : real_t -> real_t) (junk0 junk1 junk2 : nat -> real_t)
    (o : OPTIONS) (fs : gmap string file) (openable : string -> bool) :
  in_range (opt_M o) -> in_range (opt_N o) ->
  opt_max_iteration o < INT64_MAX -> opt_snapshot_frequency o <> 0 ->
  exists st',
    run sin junk0 junk1 junk2 (Some o) (start_state 0 1 fs openable) = Ok st' /\
    stdio st'
    = [PrintLocalSize 0 (opt_M o) (opt_N o); PrintOffset 0 0 0]
      ++ ((fun i => PrintIteration i (opt_max_iteration o))
            <$> filter (fun i => Z.rem i (opt_snapshot_frequency o) = 0)
                  (seqZ 0 (Z.max 0 (opt_max_iteration o + 1)))) /\
    files st' = fs /\
    main sin junk0 junk1 junk2 (Some o) (start_state 0 1 fs openable) = Exit 0.
Proof.
  intros _ _ _ Hf. unfold main, run.
  destruct (initialise_single_process sin junk0 junk1 junk2 o fs openable)
    as (st & Hrun & [= Hrank _ _ _] & [= _ _ Hmax Hfreq]
        & _ & _ & _ & Hout & [= Hfs _] & _).
  rewrite Hrun, bind_Ok.
  destruct (iterate_trace st) as (st' & Hit & Hout' & Hfiles); [congruence|].
  exists st'. rewrite Hit, bind_Ok. split; [done|]. split; [|split; [congruence|done]].
  rewrite Hout', Hout. unfold progress_lines. by rewrite Hrank, Hmax, Hfreq.
Qed.

Lemma single_process_run_witness :
  exists st',
    run sample_sin zeroed zeroed zeroed (Some square8) (start_state 0 1 ∅ all_files)
      = Ok st' /\
    stdio st'
    = [PrintLocalSize 0 (opt_M square8) (opt_N square8); PrintOffset 0 0 0]
      ++ ((fun i => PrintIteration i (opt_max_iteration square8))
            <$> filter (fun i => Z.rem i (opt_snapshot_frequency square8) = 0)
                  (seqZ 0 (Z.max 0 (opt_max_iteration square8 + 1)))) /\
    files st' = ∅ /\
    main sample_sin zeroed zeroed zeroed (Some square8) (start_state 0 1 ∅ all_files)
      = Exit 0.
Proof. apply single_process_run; closed_fact. Defined.

(** X14.  On one process the blocks [domain_init] allocates hold every cell
    that [boundary_condition] and [time_step] address: applied in this
    order to the initialised state, both return normally, and every interior
    cell of [temp[1]] then holds its stencil value. *)
Theorem single_process_step_in_bounds
    (sin : real_t -> real_t) (junk0 junk1 junk2 : nat -> real_t)
    (o : OPTIONS) (fs : gmap string file) (openable : string -> bool) :
  1 <= opt_M o <= MAX_EXTENT -> 1 <= opt_N o <= MAX_EXTENT ->
  exists st st1 st2,
    initialise sin junk0 junk1 junk2 (Some o) (start_state 0 1 fs openable)
      = Ok st /\
    boundary_condition st = Ok st1 /\
    time_step st1 = Ok st2 /\
    (forall x y, 1 <= x <= opt_N o -> 1 <= y <= opt_M o ->
       T_next st2 x y = Ok (stencil_at st1 x y)).
Proof.
  intros [HM _] [HN _].
  destruct (initialise_single_process sin junk0 junk1 junk2 o fs openable)
    as (st & Hrun & [= Hrank Hsize Hd0 Hd1] & [= EM EN _ _]
        & L0 & L1 & L2 & _).
  destruct (boundary_condition_spec st (opt_M o) (opt_N o) (temp0 st))
    as (b' & Hbc & Hl & _).
  - lia.
  - lia.
  - by rewrite EM, Hd1, Z.quot_1_r.
  - by rewrite EN, Hd0, Z.quot_1_r.
  - lia.
  - lia.
  - rewrite EN, L0. lia.
  - rewrite set_temp0_id in Hbc.
    destruct (time_step_spec (set_temp0 st b')) as (b & Hts & _ & Hin & _).
    + cbn. lia.
    + cbn. lia.
    + cbn. rewrite Hl, L0, Hsize, EM, EN, Z.quot_1_r. lia.
    + cbn. rewrite L1, Hsize, EM, EN, Z.quot_1_r. lia.
    + cbn. rewrite L2, Hsize, EM, EN, Z.quot_1_r. lia.
    + exists st, (set_temp0 st b'), (set_temp1 (set_temp0 st b') b).
      split; [done|]. split; [done|]. split; [done|].
      intros x y Hx Hy. unfold T_next. cbn [temp1 set_temp1].
      apply load_lookup; [apply index_nonneg; cbn; lia|].
      apply Hin; cbn; rewrite Hsize, ?EM, ?EN, Z.quot_1_r; lia.
Qed.

Lemma single_process_step_in_bounds_witness :
  exists st st1 st2,
    initialise sample_sin zeroed zeroed zeroed (Some square8)
      (start_state 0 1 ∅ all_files) = Ok st /\
    boundary_condition st = Ok st1 /\
    time_step st1 = Ok st2 /\
    (forall x y, 1 <= x <= opt_N square8 -> 1 <= y <= opt_M square8 ->
       T_next st2 x y = Ok (stencil_at st1 x y)).
Proof. apply single_process_step_in_bounds; closed_fact. Defined.

(** X15.  When the checkpoint file cannot be opened, [domain_save] leaves
    through [exit(1)] before it reads a cell, whatever the current block
    holds. *)
Theorem domain_save_open_failure (iteration : Z) (st : state) :
  0 <= iteration ->
  snapshot_frequency st <> 0 ->
  can_open st (snapshot_filename (Z.quot iteration (snapshot_frequency st)))
    = false ->
  domain_save iteration st = Exit 1.
Proof.
  intros _ Hf Hopen. unfold domain_save. rewrite int_div_Ok by done.
  rewrite bind_Ok. unfold fopen_wb. by rewrite Hopen.
Qed.

Lemma domain_save_open_failure_witness :
  domain_save 0
    (state_of (initialise sample_sin zeroed zeroed zeroed (Some square8)
                 (start_state 0 1 ∅ read_only))) = Exit 1.
Proof. apply domain_save_open_failure; closed_fact. Defined.
